(** * FindMentor backend: question classifier and /ask handlers

    A shallow embedding of [classifyMathQuestion] and of the request
    handlers [app.post("/ask")] and [app.post("/ask/image")] of
    [src/backend/server.js], together with the properties the
    specification states about them.

    JavaScript strings are sequences of UTF-16 code units; they are
    modelled as lists of [N].  String literals of the source are written
    as Rocq strings (UTF-8 in this file) and decoded by [js]. *)

From Stdlib Require Import List NArith ZArith Bool Lia.
From Stdlib Require Import Strings.String Strings.Ascii DecimalString.
Import ListNotations.

Set Implicit Arguments.
Set Warnings "-register-all".
Local Open Scope N_scope.

(* ================================================================= *)
(** ** JavaScript strings *)

Module JsString.

(** A string value: its UTF-16 code units. *)
Definition jsstring := list N.

(** UTF-8 decoding of a literal into UTF-16 code units (one unit for a
    code point of the basic plane, a surrogate pair above it). *)
Fixpoint utf16_of_utf8 (bs : list N) : jsstring :=
  match bs with
  | [] => []
  | b0 :: t0 =>
    if b0 <? 0x80 then b0 :: utf16_of_utf8 t0
    else if b0 <? 0xE0 then
      match t0 with
      | b1 :: t1 =>
        (N.land b0 0x1F * 64 + N.land b1 0x3F) :: utf16_of_utf8 t1
      | [] => [0xFFFD]
      end
    else if b0 <? 0xF0 then
      match t0 with
      | b1 :: b2 :: t2 =>
        (N.land b0 0x0F * 4096 + N.land b1 0x3F * 64 + N.land b2 0x3F)
          :: utf16_of_utf8 t2
      | _ => [0xFFFD]
      end
    else
      match t0 with
      | b1 :: b2 :: b3 :: t3 =>
        let cp := N.land b0 0x07 * 262144 + N.land b1 0x3F * 4096
                  + N.land b2 0x3F * 64 + N.land b3 0x3F in
        let v := cp - 0x10000 in
        (0xD800 + N.shiftr v 10) :: (0xDC00 + N.land v 0x3FF)
          :: utf16_of_utf8 t3
      | _ => [0xFFFD]
      end
  end.

Definition bytes_of_string (s : string) : list N :=
  map N_of_ascii (list_ascii_of_string s).

(** The string value denoted by a source literal. *)
Definition js (s : string) : jsstring := utf16_of_utf8 (bytes_of_string s).
Arguments js s%_string.

(** [s === t]. *)
Fixpoint eqb (s t : jsstring) : bool :=
  match s, t with
  | [], [] => true
  | x :: s', y :: t' => (x =? y) && eqb s' t'
  | _, _ => false
  end.

(** [startsWith s t]: [t] is a prefix of [s]. *)
Fixpoint startsWith (s t : jsstring) : bool :=
  match t, s with
  | [], _ => true
  | _ :: _, [] => false
  | y :: t', x :: s' => (x =? y) && startsWith s' t'
  end.

(** [String.prototype.includes]: [t] occurs in [s] at some index. *)
Fixpoint includes (s t : jsstring) : bool :=
  startsWith s t ||
  match s with
  | [] => false
  | _ :: s' => includes s' t
  end.

(** [Array.prototype.some]. *)
Definition some {A} (f : A -> bool) (l : list A) : bool := existsb f l.

(** *** Case conversion

    [String.prototype.toLowerCase] follows the Unicode default case
    conversion: every code point is replaced by its lower-case mapping,
    which may be several code points long and, for a few characters,
    depends on the neighbouring text.  The Unicode tables are not part
    of the program; they are an interface here.  [lowerAt pre c post] is
    what the code unit [c] contributes to the result when it stands
    between [pre] and [post].  Two facts of the tables are used: an
    ASCII unit is replaced by its ASCII lower case whatever surrounds
    it, and the block of mathematical operators (U+2200 to U+22FF) has
    no cased character. *)

Definition asciiLower (c : N) : N :=
  if (0x41 <=? c) && (c <=? 0x5A) then c + 32 else c.

(** A code unit that lower-casing leaves alone wherever it stands: an
    ASCII unit that is not a capital letter. *)
Definition plain (c : N) : bool := (c <? 0x80) && (asciiLower c =? c).

(** The code units whose lower case the interface below fixes: ASCII
    and the mathematical operators. *)
Definition tabled (c : N) : bool :=
  (c <? 0x80) || ((0x2200 <=? c) && (c <=? 0x22FF)).

Class CaseMapping := {
  lowerAt : jsstring -> N -> jsstring -> jsstring;
  lowerAt_ascii : forall pre c post,
    c < 0x80 -> lowerAt pre c post = [asciiLower c];
  lowerAt_operator : forall pre c post,
    0x2200 <= c <= 0x22FF -> lowerAt pre c post = [c]
}.

Fixpoint lowerFrom {unicode : CaseMapping} (pre s : jsstring) : jsstring :=
  match s with
  | [] => []
  | c :: post => lowerAt pre c post ++ lowerFrom (pre ++ [c]) post
  end.

Definition toLowerCase {unicode : CaseMapping} (s : jsstring) : jsstring :=
  lowerFrom [] s.

(** A small table: ASCII, the Latin-1 capitals, the Greek capitals, the
    Kelvin sign and the dotted capital I (whose lower case is two code
    points long). *)
Definition basicLowerAt (pre : jsstring) (c : N) (post : jsstring)
  : jsstring :=
  if c <? 0x80 then [asciiLower c]
  else if (0xC0 <=? c) && (c <=? 0xDE) && negb (c =? 0xD7) then [c + 32]
  else if (0x391 <=? c) && (c <=? 0x3A9) && negb (c =? 0x3A2) then [c + 32]
  else if c =? 0x212A then [0x6B]
  else if c =? 0x130 then [0x69; 0x307]
  else [c].

(** The small table is a case mapping. *)
Definition basicCaseMapping : CaseMapping.
Proof.
  refine {| lowerAt := basicLowerAt |}.
  - intros pre c post Hc. unfold basicLowerAt.
    apply N.ltb_lt in Hc. now rewrite Hc.
  - intros pre c post [Hlo Hhi]. unfold basicLowerAt.
    repeat match goal with
    | |- context [?a <? ?b] => destruct (N.ltb_spec a b); try lia
    | |- context [?a <=? ?b] => destruct (N.leb_spec a b); try lia
    | |- context [?a =? ?b] => destruct (N.eqb_spec a b); try lia
    end; reflexivity.
Defined.

End JsString.

(* ================================================================= *)
(** ** Regular expressions

    The fragment of the regular-expression language the two patterns of
    the classifier are written in: character sets, sequence,
    alternation, a starred character set and the word-boundary
    assertion.  Matching is over code units (neither pattern has the
    [u] flag). *)

Module Regex.
Import JsString.

Inductive atom :=
| Ch (c : string)            (* a literal character *)
| Rng (lo hi : string)       (* lo-hi *)
| Digit                      (* \d *)
| Space.                     (* \s *)

Inductive regex :=
| CharSet (l : list atom)    (* [...] *)
| Seq (r1 r2 : regex)
| Alt (r1 r2 : regex)
| Star (l : list atom)       (* [...]* *)
| WordB.                     (* \b *)

Definition unit_of (c : string) : N := hd 0 (js c).

Definition N_range (lo hi : N) : list N :=
  map (fun k => lo + N.of_nat k) (seq 0 (N.to_nat (hi + 1 - lo))).

(** WhiteSpace and LineTerminator code points. *)
Definition whiteSpace : list N :=
  [0x09; 0x0A; 0x0B; 0x0C; 0x0D; 0x20; 0xA0; 0x1680]
  ++ N_range 0x2000 0x200A
  ++ [0x2028; 0x2029; 0x202F; 0x205F; 0x3000; 0xFEFF].

Definition members (a : atom) : list N :=
  match a with
  | Ch c => [unit_of c]
  | Rng lo hi => N_range (unit_of lo) (unit_of hi)
  | Digit => N_range 0x30 0x39
  | Space => whiteSpace
  end.

(** Canonicalize, for a pattern with the [i] flag and without [u]: a
    code unit is compared by its upper case, except that a unit outside
    ASCII is never identified with an ASCII one.  Every set of the
    patterns below that is matched with [i] has ASCII members only, so
    for a unit outside ASCII the comparison fails whatever its upper
    case is; it is left as it is. *)
Definition canonicalize (ignoreCase : bool) (c : N) : N :=
  if ignoreCase && (0x61 <=? c) && (c <=? 0x7A) then c - 32 else c.

Definition inSet (ignoreCase : bool) (l : list atom) (c : N) : bool :=
  existsb (fun a => canonicalize ignoreCase a =? canonicalize ignoreCase c)
          (flat_map members l).

(** \w is [A-Za-z0-9_]. *)
Definition isWordChar (c : option N) : bool :=
  match c with
  | None => false
  | Some c =>
    ((0x61 <=? c) && (c <=? 0x7A)) || ((0x41 <=? c) && (c <=? 0x5A))
    || ((0x30 <=? c) && (c <=? 0x39)) || (c =? 0x5F)
  end.

(** [matchAt i r prev s k]: [r] matches a prefix of [s], the code unit
    before it being [prev], and the continuation [k] accepts what
    follows.  Backtracking is the disjunctions. *)
Fixpoint matchAt (i : bool) (r : regex) (prev : option N) (s : jsstring)
  (k : option N -> jsstring -> bool) {struct r} : bool :=
  match r with
  | CharSet l =>
    match s with
    | c :: s' => inSet i l c && k (Some c) s'
    | [] => false
    end
  | Seq r1 r2 => matchAt i r1 prev s (fun prev' s' => matchAt i r2 prev' s' k)
  | Alt r1 r2 => matchAt i r1 prev s k || matchAt i r2 prev s k
  | Star l =>
    (fix star (prev : option N) (s : jsstring) {struct s} : bool :=
       match s with
       | c :: s' => (inSet i l c && star (Some c) s') || k prev s
       | [] => k prev s
       end) prev s
  | WordB => xorb (isWordChar prev) (isWordChar (hd_error s)) && k prev s
  end.

Fixpoint searchFrom (i : bool) (r : regex) (prev : option N) (s : jsstring)
  : bool :=
  matchAt i r prev s (fun _ _ => true) ||
  match s with
  | [] => false
  | c :: s' => searchFrom i r (Some c) s'
  end.

(** [RegExp.prototype.test] of a pattern without the [g] and [y] flags. *)
Definition test (ignoreCase : bool) (r : regex) (s : jsstring) : bool :=
  searchFrom ignoreCase r None s.

End Regex.

(* ================================================================= *)
(** ** The classifier *)

Module Classifier.
Import JsString Regex.

Definition mathKeywords : list jsstring := map js [
  "solve"; "calculate"; "find"; "compute"; "evaluate"; "simplify";
  "equation"; "inequality"; "derivative"; "integral"; "limit"; "matrix";
  "polynomial"; "quadratic"; "linear"; "trigonometry"; "geometry";
  "algebra"; "calculus"; "statistics"; "probability"; "fraction";
  "percentage"; "ratio"; "proportion"; "area"; "volume"; "perimeter";
  "angle"; "triangle"; "circle"; "square"; "rectangle"; "graph";
  "function"; "logarithm"; "exponential"; "sin"; "cos"; "tan"
]%string.

Definition mathSymbols : list jsstring := map js [
  "+"; "-"; "*"; "/"; "="; "≠"; "<"; ">"; "≤"; "≥"; "√"; "²"; "³";
  "∫"; "∑"; "π"; "∞"; "θ"; "α"; "β"; "γ"; "Δ"; "∂"; "∇"
]%string.

(** /[\d+\-*/=()²³√∫∑]/ *)
Definition mathExpressionRe : regex :=
  CharSet [Digit; Ch "+"; Ch "-"; Ch "*"; Ch "/"; Ch "="; Ch "("; Ch ")";
           Ch "²"; Ch "³"; Ch "√"; Ch "∫"; Ch "∑"].

Definition operators : list atom := [Ch "="; Ch "+"; Ch "-"; Ch "*"; Ch "/"].

(** /[a-z]\s*[=+\-*/]|[=+\-*/]\s*[a-z]|\b(x|y|z|a|b|c|n|m|t)\b/i *)
Definition variablesRe : regex :=
  Alt (Seq (CharSet [Rng "a" "z"]) (Seq (Star [Space]) (CharSet operators)))
 (Alt (Seq (CharSet operators) (Seq (Star [Space]) (CharSet [Rng "a" "z"])))
      (Seq WordB
      (Seq (Alt (CharSet [Ch "x"]) (Alt (CharSet [Ch "y"])
           (Alt (CharSet [Ch "z"]) (Alt (CharSet [Ch "a"])
           (Alt (CharSet [Ch "b"]) (Alt (CharSet [Ch "c"])
           (Alt (CharSet [Ch "n"]) (Alt (CharSet [Ch "m"])
                (CharSet [Ch "t"])))))))))
           WordB))).

Section Classify.
Context {unicode : CaseMapping}.

Definition hasMathKeyword (question : jsstring) : bool :=
  let q := toLowerCase question in
  some (fun keyword => includes q keyword) mathKeywords.

Definition hasMathSymbol (question : jsstring) : bool :=
  some (fun symbol => includes question symbol) mathSymbols.

Definition hasMathExpression (question : jsstring) : bool :=
  test false mathExpressionRe question.

Definition hasVariables (question : jsstring) : bool :=
  test true variablesRe question.

Definition classifyMathQuestion (question : jsstring) : jsstring :=
  let q := toLowerCase question in
  if hasMathKeyword question || hasMathSymbol question
     || (hasMathExpression question && hasVariables question)
  then
    if includes q (js "∫") || includes q (js "integrate")
       || includes q (js "integration") then js "integrals"
    else if includes q (js "derivative") || includes q (js "differentiate")
       || includes q (js "d/dx") then js "calculus"
    else if includes q (js "matrix") || includes q (js "determinant")
      then js "linear_algebra"
    else if includes q (js "trig") || includes q (js "sin")
       || includes q (js "cos") || includes q (js "tan")
      then js "trigonometry"
    else if includes q (js "geometry") || includes q (js "area")
       || includes q (js "volume") || includes q (js "perimeter")
      then js "geometry"
    else if includes q (js "probability") || includes q (js "statistics")
      then js "statistics"
    else js "math"
  else js "unknown".

(** What the classifier's [q.includes(t)] decides: [t] occurs in the
    question, letter case set aside. *)
Definition containsCI (question t : jsstring) : bool :=
  includes (toLowerCase question) t.

(** The condition of the outer [if]. *)
Definition passesGate (question : jsstring) : bool :=
  hasMathKeyword question || hasMathSymbol question
  || (hasMathExpression question && hasVariables question).

End Classify.

(** *** The rules as the specification lists them

    An ordered list of (trigger substrings, tag) pairs evaluated top to
    bottom on the lower-cased question, with "math" when none applies. *)
Definition rules : list (list jsstring * jsstring) := [
  (map js ["∫"; "integrate"; "integration"]%string, js "integrals");
  (map js ["derivative"; "differentiate"; "d/dx"]%string, js "calculus");
  (map js ["matrix"; "determinant"]%string, js "linear_algebra");
  (map js ["trig"; "sin"; "cos"; "tan"]%string, js "trigonometry");
  (map js ["geometry"; "area"; "volume"; "perimeter"]%string, js "geometry");
  (map js ["probability"; "statistics"]%string, js "statistics")
].

Fixpoint firstMatch (q : jsstring) (rs : list (list jsstring * jsstring))
  : jsstring :=
  match rs with
  | [] => js "math"
  | (triggers, tag) :: rest =>
    if some (fun t => includes q t) triggers then tag else firstMatch q rest
  end.

(** The tag of a keyword: that of the first rule one of whose triggers
    occurs in the keyword, "math" when there is none. *)
Definition tagOfKeyword (keyword : jsstring) : jsstring :=
  firstMatch keyword rules.

(** The triggers of the rules that come before the keyword's own rule
    (all six rules for a keyword whose tag is "math"). *)
Fixpoint overriding (keyword : jsstring)
  (rs : list (list jsstring * jsstring)) : list jsstring :=
  match rs with
  | [] => []
  | (triggers, _) :: rest =>
    if some (fun t => includes keyword t) triggers then []
    else triggers ++ overriding keyword rest
  end.

(** The eight tags. *)
Definition tags : list jsstring := map js [
  "integrals"; "calculus"; "linear_algebra"; "trigonometry"; "geometry";
  "statistics"; "math"; "unknown"
]%string.

End Classifier.


(* ================================================================= *)
(** ** The request handlers *)

Module Server.
Import JsString Regex Classifier.

(** JavaScript values, as far as the handlers inspect them.  Of a
    number only whether it is zero matters here. *)
Inductive value :=
| Undefined
| Null
| Boolean (b : bool)
| Number (n : Z)
| Str (s : jsstring)
| Array (items : list value)
| Object (fields : list (string * value)).

(** An [Error] object. *)
Record error := { message : jsstring }.

(** An [Error] object as a value.  What a [throw] or a rejected
    promise carries is any value, an [Error] object or not. *)
Definition thrownError (e : error) : value :=
  Object [("message", Str (message e))]%string.

(** ToBoolean. *)
Definition truthy (v : value) : bool :=
  match v with
  | Undefined | Null => false
  | Boolean b => b
  | Number n => negb (Z.eqb n 0)
  | Str s => match s with [] => false | _ => true end
  | Array _ | Object _ => true
  end.

Fixpoint lookupField (k : string) (fields : list (string * value)) : value :=
  match fields with
  | [] => Undefined
  | (k', v) :: rest => if String.eqb k k' then v else lookupField k rest
  end.

(** [o.k] for an object [o]; a property the value does not have is
    [undefined]. *)
Definition get (o : value) (k : string) : value :=
  match o with
  | Object fields => lookupField k fields
  | _ => Undefined
  end.

(** A property of an object literal: a later one replaces an earlier
    one of the same name, in its place. *)
Fixpoint setField (k : string) (v : value) (fields : list (string * value))
  : list (string * value) :=
  match fields with
  | [] => [(k, v)]
  | (k', v') :: rest =>
    if String.eqb k k' then (k, v) :: rest else (k', v') :: setField k v rest
  end.

(** The name of the property at index [i]. *)
Definition indexKey (i : nat) : string :=
  NilEmpty.string_of_uint (Nat.to_uint i).

Fixpoint indexed (i : nat) (items : list value) : list (string * value) :=
  match items with
  | [] => []
  | v :: rest => (indexKey i, v) :: indexed (S i) rest
  end.

(** [...result] in an object literal: the own enumerable properties of
    the value.  Those of an array are its elements and those of a
    string its code units, each under its index; [undefined], [null], a
    boolean and a number have none. *)
Definition spread (v : value) : list (string * value) :=
  match v with
  | Object fields => fields
  | Array items => indexed 0 items
  | Str s => indexed 0 (map (fun c => Str [c]) s)
  | _ => []
  end.

(** The uploads directory: path and contents of each file. *)
Definition fs := list (jsstring * list N).

Fixpoint readFile (path : jsstring) (files : fs) : option (list N) :=
  match files with
  | [] => None
  | (p, content) :: rest =>
    if JsString.eqb p path then Some content else readFile path rest
  end.

Definition removeFile (path : jsstring) (files : fs) : fs :=
  filter (fun entry => negb (JsString.eqb (fst entry) path)) files.

(** What the collaborators of the handlers do, as far as the
    specification names it. *)
Inductive step :=
| Classification (text : jsstring)
| Lookup (text : jsstring)
| Composition
| Generation (text tag context : jsstring)
| Extraction.

(** What a handler does. *)
Inductive event :=
| Invoked (callee : string) (args : list value)
| Inside (callee : string) (s : step)
| ConsoleError (args : list value)
| Respond (status : Z) (body : value).

(** A computation emits events, changes the uploads directory and
    returns or throws; what it throws is a value. *)
Definition Eff (E A : Type) : Type := fs -> list E * fs * (value + A).

Definition ret {E A} (a : A) : Eff E A := fun files => ([], files, inr a).

Definition throw {E A} (e : value) : Eff E A := fun files => ([], files, inl e).

Definition bind {E A B} (m : Eff E A) (k : A -> Eff E B) : Eff E B :=
  fun files =>
    match m files with
    | (evs, files', inl e) => (evs, files', inl e)
    | (evs, files', inr a) =>
      match k a files' with
      | (evs', files'', r) => (evs ++ evs', files'', r)
      end
    end.

Definition emit {E} (e : E) : Eff E unit := fun files => ([e], files, inr tt).

(** [try { body } catch (error) { handler error }]. *)
Definition tryCatch {E A} (body : Eff E A) (handler : value -> Eff E A)
  : Eff E A :=
  fun files =>
    match body files with
    | (evs, files', inl e) =>
      match handler e files' with
      | (evs', files'', r) => (evs ++ evs', files'', r)
      end
    | done => done
    end.

Declare Scope eff_scope.
Delimit Scope eff_scope with eff.
Notation "x <- m ;; k" := (bind m (fun x => k))
  (at level 61, m at next level, right associativity) : eff_scope.
Notation "m ;; k" := (bind m (fun _ => k))
  (at level 61, right associativity) : eff_scope.
Local Open Scope eff_scope.

Definition Handler := Eff event.
Definition Collab := Eff step.

(** A call of a collaborator: the call is recorded, and so is what the
    collaborator does. *)
Definition invoke {A} (callee : string) (args : list value) (c : Collab A)
  : Handler A :=
  fun files =>
    match c files with
    | (steps, files', r) =>
      (Invoked callee args :: map (Inside callee) steps, files', r)
    end.

Definition readFileSync (path : jsstring) : Handler (list N) :=
  fun files =>
    match readFile path files with
    | Some content => ([], files, inr content)
    | None =>
      ([], files,
       inl (thrownError {| message := js "ENOENT: no such file or directory" |}))
    end.

Definition unlinkSync (path : jsstring) : Handler unit :=
  fun files =>
    match readFile path files with
    | Some _ => ([], removeFile path files, inr tt)
    | None =>
      ([], files,
       inl (thrownError {| message := js "ENOENT: no such file or directory" |}))
    end.

Definition existsSync (path : jsstring) : Handler bool :=
  fun files =>
    ([], files, inr (match readFile path files with Some _ => true | None => false end)).

Definition consoleError (args : list value) : Handler unit :=
  emit (ConsoleError args).

(** [error.message] for the value a [catch] has caught: reading a
    property of [undefined] or of [null] throws a TypeError, and a
    value without the property gives [undefined]. *)
Definition messageTypeError : value :=
  thrownError
    {| message := js "Cannot read properties of undefined (reading 'message')" |}.

Definition messageOf (thrown : value) : Handler value :=
  match thrown with
  | Undefined | Null => throw messageTypeError
  | _ => ret (get thrown "message")
  end.

(** [res.status(s).json(body)]; [res.json(body)] is [respond 200 body]. *)
Definition respond (status : Z) (body : value) : Handler unit :=
  emit (Respond status body).

(** An uploaded file, [req.file]. *)
Record upload := { path : jsstring; mimetype : jsstring }.

Record request := { body : value; file : option upload }.

(** What [processImage] resolves to. *)
Record imageResult := {
  ir_success : bool;
  ir_text : jsstring;
  ir_error : value
}.

(** The functions [server.js] imports. *)
Record Imports := {
  resolveQuery : value -> value -> Collab value;
  processImage : jsstring -> jsstring -> Collab imageResult;
  imageToBase64 : list N -> jsstring -> jsstring
}.

(** [const { question, language } = req.body]. *)
Definition destructure (o : value) (k1 k2 : string) : Handler (value * value) :=
  match o with
  | Undefined | Null =>
    throw (thrownError
      {| message := js "Cannot destructure property of req.body" |})
  | _ => ret (get o k1, get o k2)
  end.

Section Handlers.
Variable imports : Imports.

(** [app.post("/ask", ...)]. *)
Definition ask (req : request) : Handler unit :=
  tryCatch
    (ql <- destructure (body req) "question" "language" ;;
     let question := fst ql in
     let language := snd ql in
     if negb (truthy question) then
       respond 400 (Object [("success", Boolean false);
                            ("error", Str (js "Question is required"))]%string)
     else
       result <- invoke "resolveQuery"
                   [question; Object [("language", language)]%string]
                   (resolveQuery imports question
                      (Object [("language", language)]%string)) ;;
       respond 200 result)
    (fun error =>
       msg <- messageOf error ;;
       consoleError [Str (js "❌ Server Error:"); msg] ;;
       respond 500 (Object [
         ("success", Boolean false);
         ("error", Str (js "Internal server error"));
         ("message", Str (js
            "An unexpected error occurred. Please try again later."))
       ]%string)).

(** The template literal of the image handler, without its
    substitution. *)
Definition imageProvenance : jsstring :=
  js "This question was extracted from an image. Original extracted text: ".

(** [app.post("/ask/image", upload.single("image"), ...)]. *)
Definition askImage (req : request) : Handler unit :=
  tryCatch
    (match file req with
     | None =>
       respond 400 (Object [("success", Boolean false);
                            ("error", Str (js "Image file is required"))]%string)
     | Some f =>
       imageBuffer <- readFileSync (path f) ;;
       let imageBase64 := imageToBase64 imports imageBuffer (mimetype f) in
       imageResult <- invoke "processImage"
                        [Str imageBase64; Str (mimetype f)]
                        (processImage imports imageBase64 (mimetype f)) ;;
       unlinkSync (path f) ;;
       if negb (ir_success imageResult) then
         respond 400 (Object [
           ("success", Boolean false);
           ("error", if truthy (ir_error imageResult)
                     then ir_error imageResult
                     else Str (js "Failed to process image"))
         ]%string)
       else
         let extractedText := ir_text imageResult in
         let options := Object [
           ("context", Str (imageProvenance ++ extractedText)%list)
         ]%string in
         result <- invoke "resolveQuery" [Str extractedText; options]
                     (resolveQuery imports (Str extractedText) options) ;;
         respond 200 (Object (
           setField "source" (Str (js "image"))
             (setField "extractedText" (Str extractedText) (spread result))))
     end)
    (fun error =>
       msg <- messageOf error ;;
       consoleError [Str (js "❌ Image processing error:"); msg] ;;
       (match file req with
        | Some f =>
          present <- existsSync (path f) ;;
          if present then unlinkSync (path f) else ret tt
        | None => ret tt
        end) ;;
       respond 500 (Object [
         ("success", Boolean false);
         ("error", Str (js "Failed to process image"));
         ("message", msg)
       ]%string)).

End Handlers.

(** The calls of the query resolver among the events of a run. *)
Definition resolverCalls (evs : list event) : list (list value) :=
  flat_map (fun e =>
    match e with
    | Invoked callee args =>
      if String.eqb callee "resolveQuery" then [args] else []
    | _ => []
    end) evs.

(** The steps of the resolver among the events of a run. *)
Definition resolverSteps (evs : list event) : list step :=
  flat_map (fun e =>
    match e with
    | Inside callee s => if String.eqb callee "resolveQuery" then [s] else []
    | _ => []
    end) evs.

(** The responses sent in a run. *)
Definition responses (evs : list event) : list (Z * value) :=
  flat_map (fun e =>
    match e with
    | Respond status body => [(status, body)]
    | _ => []
    end) evs.

(** The three bodies [app.post("/ask")] responds with by itself. *)
Definition questionRequired : value :=
  Object [("success", Boolean false);
          ("error", Str (js "Question is required"))]%string.

Definition internalServerError : value :=
  Object [("success", Boolean false);
          ("error", Str (js "Internal server error"));
          ("message", Str (js
             "An unexpected error occurred. Please try again later."))]%string.

Definition eventsOf {A} (run : list event * fs * (value + A)) : list event :=
  fst (fst run).

(** A run that ends with exactly one response, which says
    [success:false] and carries a non-empty [error] string, and from
    which no exception escapes. *)
Definition rejected (run : list event * fs * (value + unit)) : Prop :=
  let '(evs, _, outcome) := run in
  outcome = inr tt
  /\ exists status body msg,
       responses evs = [(status, body)]
       /\ get body "success" = Boolean false
       /\ get body "error" = Str msg
       /\ msg <> [].

End Server.

(* ================================================================= *)
(** ** The query resolver *)

Module Resolver.
Import JsString Regex Classifier Server.
Local Open Scope eff_scope.

(** Modelled from the spec: an entry of the reference dataset. *)
Record ReferenceEntry := { question : jsstring; answer : jsstring }.

(** Modelled from the spec: empty or white-space-only text, that is,
    every code unit, if there is one, is white space. *)
Definition blank (text : jsstring) : bool :=
  forallb (fun c => existsb (N.eqb c) whiteSpace) text.

(** Modelled from the spec: the two shapes of a resolved answer. *)
Definition failure (msg : jsstring) : value :=
  Object [("success", Boolean false); ("answerText", Str []);
          ("error", Str msg)]%string.

Definition answered (answerText domainTag : jsstring) : value :=
  Object [("success", Boolean true); ("answerText", Str answerText);
          ("domainTag", Str domainTag)]%string.

(** Modelled from the spec: the context handed to the generator is
    [options.context] when the caller gave one. *)
Definition compose (options : value) : jsstring :=
  match get options "context" with
  | Str context => context
  | _ => []
  end.

Section Resolve.
Context {unicode : CaseMapping}.
(** The knowledge lookup over the preloaded dataset and the generation
    backend are collaborators of the resolver. *)
Variable lookup : jsstring -> option ReferenceEntry.
Variable generate : jsstring -> jsstring -> jsstring -> error + jsstring.

(** Modelled from the spec: [resolveQuery], which [server.js] imports
    from [queryResolver.js]; that file is not among the sources.  The
    steps are those of the specification's query resolver: validate
    (empty or white-space-only text is answered with [success:false]
    and the error "empty input" at once), classify, look up (a match is
    answered from the reference entry, without generation), compose the
    context, generate (a failure of the generator is answered with
    [success:false] and its message). *)
Definition resolveQuery (rawText options : value) : Collab value :=
  match rawText with
  | Str text =>
    if blank text then ret (failure (js "empty input"))
    else
      emit (Classification text) ;;
      let domainTag := classifyMathQuestion text in
      emit (Lookup text) ;;
      match lookup text with
      | Some entry => ret (answered (answer entry) domainTag)
      | None =>
        emit Composition ;;
        let context := compose options in
        emit (Generation text domainTag context) ;;
        match generate text domainTag context with
        | inr answerText => ret (answered answerText domainTag)
        | inl e => ret (failure (message e))
        end
      end
  | _ => ret (failure (js "empty input"))
  end.

(** The imports of [server.js] with this resolver. *)
Definition withResolver (imports : Imports) : Imports :=
  {| Server.resolveQuery := resolveQuery;
     processImage := processImage imports;
     imageToBase64 := imageToBase64 imports |}.

End Resolve.

End Resolver.

(* ================================================================= *)
(** ** The tests of the classifier, character by character

    What the two patterns and the symbol list look for, written as
    predicates on code units.  They are compared with the code
    below. *)

Module CharForms.
Import JsString Regex Classifier.

(** The code units of [mathSymbols]. *)
Definition symbolUnits : list N :=
  [0x2B; 0x2D; 0x2A; 0x2F; 0x3D; 0x2260; 0x3C; 0x3E; 0x2264; 0x2265;
   0x221A; 0xB2; 0xB3; 0x222B; 0x2211; 0x3C0; 0x221E; 0x3B8; 0x3B1;
   0x3B2; 0x3B3; 0x394; 0x2202; 0x2207].

Definition isSymbolChar (c : N) : bool := existsb (N.eqb c) symbolUnits.

Definition isDigit (c : N) : bool := (0x30 <=? c) && (c <=? 0x39).

(** A digit or one of + - * / = ( ) ² ³ √ ∫ ∑. *)
Definition isExpressionChar (c : N) : bool :=
  isDigit c
  || existsb (N.eqb c)
       [0x2B; 0x2D; 0x2A; 0x2F; 0x3D; 0x28; 0x29; 0xB2; 0xB3; 0x221A;
        0x222B; 0x2211].

(** The expression characters that are not math symbols. *)
Definition isDigitOrParen (c : N) : bool :=
  isDigit c || (c =? 0x28) || (c =? 0x29).

(** One of = + - * /. *)
Definition isOperator (c : N) : bool :=
  existsb (N.eqb c) [0x3D; 0x2B; 0x2D; 0x2A; 0x2F].

(** One of x y z a b c n m t, in either case. *)
Definition isVariableLetter (c : N) : bool :=
  existsb (N.eqb (asciiLower c))
    [0x78; 0x79; 0x7A; 0x61; 0x62; 0x63; 0x6E; 0x6D; 0x74].

(** White space, as \s has it. *)
Definition isSpace (c : N) : bool := existsb (N.eqb c) whiteSpace.

(** An ASCII letter. *)
Definition isLetter (c : N) : bool :=
  ((0x61 <=? c) && (c <=? 0x7A)) || ((0x41 <=? c) && (c <=? 0x5A)).

(** The three alternatives of [variablesRe]. *)
Definition letterThenOperatorRe : regex :=
  Seq (CharSet [Rng "a" "z"]) (Seq (Star [Space]) (CharSet operators)).

Definition operatorThenLetterRe : regex :=
  Seq (CharSet operators) (Seq (Star [Space]) (CharSet [Rng "a" "z"])).

Definition wholeWordVariableRe : regex :=
  Seq WordB
 (Seq (Alt (CharSet [Ch "x"]) (Alt (CharSet [Ch "y"])
      (Alt (CharSet [Ch "z"]) (Alt (CharSet [Ch "a"])
      (Alt (CharSet [Ch "b"]) (Alt (CharSet [Ch "c"])
      (Alt (CharSet [Ch "n"]) (Alt (CharSet [Ch "m"])
           (CharSet [Ch "t"])))))))))
      WordB).

(** The rule triggers that contain a gate keyword. *)
Definition openingTriggers : list jsstring :=
  filter (fun t => some (fun keyword => includes t keyword) mathKeywords)
         (flat_map fst rules).

(** The rule triggers that contain a math symbol. *)
Definition symbolTriggers : list jsstring :=
  filter (fun t => some (fun symbol => includes t symbol) mathSymbols)
         (flat_map fst rules).

(** The rule triggers that contain neither. *)
Definition closedTriggers : list jsstring :=
  filter (fun t =>
            negb (some (fun keyword => includes t keyword) mathKeywords)
            && negb (some (fun symbol => includes t symbol) mathSymbols))
         (flat_map fst rules).

(** The code unit before the text that follows [a], when [prev] is the
    one before [a]. *)
Fixpoint prevOf (prev : option N) (a : jsstring) : option N :=
  match a with
  | [] => prev
  | c :: a' => prevOf (Some c) a'
  end.

End CharForms.

(* ================================================================= *)
(** ** The handlers of the other uploads *)

Module Media.
Import JsString Server.
Local Open Scope eff_scope.

(** What [extractTextFromPDFBuffer] resolves to. *)
Record pdfResult := {
  pr_success : bool;
  pr_text : jsstring;
  pr_pages : Z;
  pr_error : value
}.

(** The functions the other handlers call: two imports of
    [server.js], the transcription call of the Groq client, and the
    conversions to a string that a template literal applies to a
    number and to a value that is not a string. *)
Record MediaImports := {
  extractTextFromPDFBuffer : list N -> Collab pdfResult;
  extractQuestionsFromPDF : jsstring -> Collab (list value);
  transcribe : value -> Collab value;
  numberToString : Z -> jsstring;
  otherToString : value -> jsstring
}.

(** [s.substring(a, b)] for two indices that are not negative. *)
Definition substring (s : jsstring) (a b : nat) : jsstring :=
  firstn (Nat.max a b - Nat.min a b) (skipn (Nat.min a b) s).

(** A buffer as a value: its bytes. *)
Definition bufferValue (buffer : list N) : value :=
  Array (map (fun b => Number (Z.of_N b)) buffer).

(** [const { question } = req.body]. *)
Definition destructureQuestion (o : value) : Handler value :=
  match o with
  | Undefined | Null =>
    throw (thrownError
      {| message := js "Cannot destructure property of req.body" |})
  | _ => ret (get o "question")
  end.

(** [typeof transcription === "string" ? transcription
     : transcription.text || ""]. *)
Definition transcriptText (transcription : value) : Handler value :=
  match transcription with
  | Str s => ret (Str s)
  | Undefined | Null =>
    throw (thrownError
      {| message := js "Cannot read properties of undefined (reading 'text')" |})
  | _ =>
    ret (if truthy (get transcription "text")
         then get transcription "text" else Str [])
  end.

Section MediaHandlers.
Variable imports : Imports.
Variable media : MediaImports.

(** [${text}] in a template literal. *)
Definition interpolate (v : value) : jsstring :=
  match v with
  | Str s => s
  | _ => otherToString media v
  end.

Definition pdfInfo (result : pdfResult) (questions : list value) : value :=
  Object [("pages", Number (pr_pages result));
          ("questionsFound", Number (Z.of_nat (List.length questions)))]%string.

(** The template literal of the PDF handler. *)
Definition pdfContext (result : pdfResult) : jsstring :=
  js "Context from PDF (" ++ numberToString media (pr_pages result)
  ++ js " pages):" ++ [0x0A] ++ substring (pr_text result) 0 2000
  ++ js "...".

(** [app.post("/ask/pdf", upload.single("pdf"), ...)]. *)
Definition askPdf (req : request) : Handler unit :=
  tryCatch
    (match file req with
     | None =>
       respond 400 (Object [("success", Boolean false);
                            ("error", Str (js "PDF file is required"))]%string)
     | Some f =>
       pdfBuffer <- readFileSync (path f) ;;
       result <- invoke "extractTextFromPDFBuffer" [bufferValue pdfBuffer]
                   (extractTextFromPDFBuffer media pdfBuffer) ;;
       unlinkSync (path f) ;;
       if negb (pr_success result) then
         respond 400 (Object [
           ("success", Boolean false);
           ("error", if truthy (pr_error result) then pr_error result
                     else Str (js "Failed to extract text from PDF"))
         ]%string)
       else
         questions <- invoke "extractQuestionsFromPDF" [Str (pr_text result)]
                        (extractQuestionsFromPDF media (pr_text result)) ;;
         question <- destructureQuestion (body req) ;;
         if truthy question then
           let options := Object [("context", Str (pdfContext result))]%string in
           answer <- invoke "resolveQuery" [question; options]
                       (resolveQuery imports question options) ;;
           respond 200 (Object (
             setField "pdfInfo" (pdfInfo result questions) (spread answer)))
         else
           respond 200 (Object [
             ("success", Boolean true);
             ("source", Str (js "pdf"));
             ("pdfInfo", pdfInfo result questions);
             ("questions", Array questions);
             ("fullText", Str (substring (pr_text result) 0 1000 ++ js "...")%list)
           ]%string)
     end)
    (fun error =>
       msg <- messageOf error ;;
       consoleError [Str (js "❌ PDF processing error:"); msg] ;;
       (match file req with
        | Some f =>
          present <- existsSync (path f) ;;
          if present then unlinkSync (path f) else ret tt
        | None => ret tt
        end) ;;
       respond 500 (Object [
         ("success", Boolean false);
         ("error", Str (js "Failed to process PDF"));
         ("message", msg)
       ]%string)).

(** The argument of [groq.audio.transcriptions.create].  The stream
    that [fs.createReadStream] makes of the upload is represented by
    the path it was made for: the handlers below are what the handler
    functions do themselves, call by call; what the stream does on its
    own afterwards (opening the file, an error event when the file is
    gone) is not part of them. *)
Definition transcriptionRequest (f : upload) : value :=
  Object [("model", Str (js "whisper-large-v3-turbo"));
          ("file", Str (path f));
          ("response_format", Str (js "text"))]%string.

Definition audioProvenance : jsstring :=
  js "This question was transcribed from an audio message. Original transcript: ".

(** [app.post("/ask/audio", upload.single("audio"), ...)]. *)
Definition askAudio (req : request) : Handler unit :=
  tryCatch
    (match file req with
     | None =>
       respond 400 (Object [("success", Boolean false);
                            ("error", Str (js "Audio file is required"))]%string)
     | Some f =>
       transcription <- invoke "groq.audio.transcriptions.create"
                          [transcriptionRequest f]
                          (transcribe media (transcriptionRequest f)) ;;
       unlinkSync (path f) ;;
       text <- transcriptText transcription ;;
       if negb (truthy text) then
         respond 400 (Object [
           ("success", Boolean false);
           ("error", Str (js "Could not transcribe audio"))]%string)
       else
         let options := Object [
           ("context", Str (audioProvenance ++ interpolate text)%list)
         ]%string in
         result <- invoke "resolveQuery" [text; options]
                     (resolveQuery imports text options) ;;
         respond 200 (Object (
           setField "source" (Str (js "audio"))
             (setField "transcript" text (spread result))))
     end)
    (fun error =>
       msg <- messageOf error ;;
       consoleError [Str (js "❌ Audio processing error:"); msg] ;;
       (match file req with
        | Some f =>
          present <- existsSync (path f) ;;
          if present then unlinkSync (path f) else ret tt
        | None => ret tt
        end) ;;
       respond 500 (Object [
         ("success", Boolean false);
         ("error", Str (js "Failed to process audio"));
         ("message", msg)
       ]%string)).

Definition videoProvenance : jsstring :=
  js "This question was transcribed from a video. Original transcript: ".

(** [app.post("/ask/video", upload.single("video"), ...)]. *)
Definition askVideo (req : request) : Handler unit :=
  tryCatch
    (match file req with
     | None =>
       respond 400 (Object [("success", Boolean false);
                            ("error", Str (js "Video file is required"))]%string)
     | Some f =>
       transcription <- invoke "groq.audio.transcriptions.create"
                          [transcriptionRequest f]
                          (transcribe media (transcriptionRequest f)) ;;
       unlinkSync (path f) ;;
       text <- transcriptText transcription ;;
       if negb (truthy text) then
         respond 400 (Object [
           ("success", Boolean false);
           ("error", Str (js "Could not transcribe video"))]%string)
       else
         let options := Object [
           ("context", Str (videoProvenance ++ interpolate text)%list)
         ]%string in
         result <- invoke "resolveQuery" [text; options]
                     (resolveQuery imports text options) ;;
         respond 200 (Object (
           setField "source" (Str (js "video"))
             (setField "transcript" text (spread result))))
     end)
    (fun error =>
       msg <- messageOf error ;;
       consoleError [Str (js "❌ Video processing error:"); msg] ;;
       (match file req with
        | Some f =>
          present <- existsSync (path f) ;;
          if present then unlinkSync (path f) else ret tt
        | None => ret tt
        end) ;;
       respond 500 (Object [
         ("success", Boolean false);
         ("error", Str (js "Failed to process video"));
         ("message", msg)
       ]%string)).

End MediaHandlers.

(** A transcription that reads [s]: the string itself, or an object
    whose [text] is the string. *)
Definition reads (transcription : value) (s : jsstring) : Prop :=
  transcription = Str s
  \/ exists fields,
       transcription = Object fields /\ lookupField "text" fields = Str s.

(** A collaborator that throws [Error] objects only. *)
Definition throwsErrors {A} (c : Collab A) : Prop :=
  forall files steps files' thrown,
    c files = (steps, files', inl thrown) ->
    exists e, thrown = thrownError e.

(** A collaborator that does not put a file back at [p]. *)
Definition leavesAbsent {A} (p : jsstring) (c : Collab A) : Prop :=
  forall files steps files' r,
    c files = (steps, files', r) ->
    readFile p files = None -> readFile p files' = None.

(** A run sends exactly one response and returns normally. *)
Definition answersOnce (run : list event * fs * (value + unit)) : Prop :=
  let '(evs, _, outcome) := run in
  outcome = inr tt /\ exists status body, responses evs = [(status, body)].

End Media.

(* ================================================================= *)
(** ** Sample collaborators *)

Module Samples.
Import JsString Server Resolver.

(** A resolver that answers every question. *)
Definition echoResolver (rawText options : value) : Collab value :=
  bind (emit (Generation [] [] []))
       (fun _ => ret (Object [("success", Boolean true);
                              ("answerText", rawText)]%string)).

(** A resolver whose generation backend times out. *)
Definition failingResolver (rawText options : value) : Collab value :=
  bind (emit (Generation [] [] []))
       (fun _ => throw (thrownError {| message := js "Request timed out." |})).


(** An OCR that reads "2 + 2 = ?" in every image. *)
Definition sampleOcr (image mimetype : jsstring) : Collab imageResult :=
  bind (emit Extraction)
       (fun _ => ret {| ir_success := true; ir_text := js "2 + 2 = ?";
                        ir_error := Undefined |}).

Definition sampleImports (resolver : value -> value -> Collab value)
  : Imports :=
  {| Server.resolveQuery := resolver;
     processImage := sampleOcr;
     imageToBase64 := fun _ mimetype => js "data:;base64," |}.

Definition noReference (text : jsstring) : option ReferenceEntry := None.

Definition sampleGenerate (text tag context : jsstring) : error + jsstring :=
  inr (js "42").

Definition sampleUpload : upload :=
  {| path := js "uploads/3f2a"; mimetype := js "image/png" |}.

Definition sampleFiles : fs := [(js "uploads/3f2a", [0x89; 0x50; 0x4E; 0x47])].

Definition askRequest (question : value) : request :=
  {| body := Object [("question", question)]%string; file := None |}.

Definition imageRequest : request :=
  {| body := Object []; file := Some sampleUpload |}.

End Samples.

Module MediaSamples.
Import JsString Server Media Samples.

(** The decimal digits of an integer. *)
Definition decimal (n : Z) : jsstring :=
  js (NilEmpty.string_of_int (Z.to_int n)).

(** A one-page PDF with one question in it. *)
Definition samplePdf (buffer : list N) : Collab pdfResult :=
  bind (emit Extraction)
       (fun _ => ret {| pr_success := true;
                        pr_text := js "Q1. What is 2 + 2?";
                        pr_pages := 1;
                        pr_error := Undefined |}).

Definition sampleQuestions (text : jsstring) : Collab (list value) :=
  ret [Str text].

Definition sampleMedia (transcription : value) : MediaImports :=
  {| extractTextFromPDFBuffer := samplePdf;
     extractQuestionsFromPDF := sampleQuestions;
     transcribe := fun _ => bind (emit Extraction) (fun _ => ret transcription);
     numberToString := decimal;
     otherToString := fun _ => js "[object Object]" |}.

(** An OCR that finds no text. *)
Definition blindOcr (image mimetype : jsstring) : Collab imageResult :=
  bind (emit Extraction)
       (fun _ => ret {| ir_success := false; ir_text := [];
                        ir_error := Str (js "No text detected") |}).

(** An OCR that throws. *)
Definition brokenOcr (image mimetype : jsstring) : Collab imageResult :=
  bind (emit Extraction)
       (fun _ => throw (thrownError {| message := js "Worker terminated" |})).

Definition importsWithOcr
  (ocr : jsstring -> jsstring -> Collab imageResult) : Imports :=
  {| Server.resolveQuery := echoResolver;
     processImage := ocr;
     imageToBase64 := fun _ mimetype => js "data:;base64," |}.

Definition pdfRequest (question : value) : request :=
  {| body := Object [("question", question)]%string;
     file := Some sampleUpload |}.

End MediaSamples.

(* ================================================================= *)
(** ** Facts about strings *)

Import JsString Regex Classifier.

Section StringFacts.

Lemma startsWith_app (s t : jsstring) :
  startsWith s t = true <-> exists b, s = t ++ b.
Proof.
  revert s. induction t as [|y t IH]; intros s.
  - split; [exists s; reflexivity | destruct s; reflexivity].
  - destruct s as [|x s]; simpl.
    + split; [discriminate | intros [b Hb]; discriminate].
    + rewrite andb_true_iff, N.eqb_eq, IH. split.
      * intros [-> [b ->]]. now exists b.
      * intros [b Hb]. injection Hb as -> ->. split; [reflexivity | now exists b].
Qed.

Lemma includes_app (s t : jsstring) :
  includes s t = true <-> exists a b, s = a ++ t ++ b.
Proof.
  induction s as [|x s IH].
  - cbn [includes]. rewrite orb_false_r, startsWith_app. split.
    + intros [b Hb]. now exists [], b.
    + intros [a [b Hab]]. destruct a; [now exists b | discriminate].
  - cbn [includes]. rewrite orb_true_iff, IH, startsWith_app. split.
    + intros [[b Hb] | [a [b Hab]]].
      * now exists [], b.
      * exists (x :: a), b. now rewrite Hab.
    + intros [a [b Hab]]. destruct a as [|x' a].
      * left. now exists b.
      * right. injection Hab as _ ->. now exists a, b.
Qed.

Lemma includes_refl (s : jsstring) : includes s s = true.
Proof. apply includes_app. exists [], []. now rewrite app_nil_r. Qed.

Lemma includes_trans (s t u : jsstring) :
  includes s t = true -> includes t u = true -> includes s u = true.
Proof.
  rewrite !includes_app. intros [a [b ->]] [c [d ->]].
  exists (a ++ c), (d ++ b). now rewrite <- !app_assoc.
Qed.

Lemma includes_app_r (a t : jsstring) : includes (a ++ t) t = true.
Proof. apply includes_app. exists a, []. now rewrite app_nil_r. Qed.

Context {unicode : CaseMapping}.

Lemma lowerAt_tabled (pre : jsstring) (c : N) (post : jsstring) :
  tabled c = true -> lowerAt pre c post = [asciiLower c].
Proof.
  unfold tabled. intros Hc. apply orb_true_iff in Hc as [Hc | Hc].
  - apply lowerAt_ascii. now apply N.ltb_lt.
  - apply andb_true_iff in Hc as [Hlo Hhi].
    apply N.leb_le in Hlo, Hhi. rewrite lowerAt_operator by lia.
    unfold asciiLower.
    destruct (N.leb_spec c 0x5A); [lia | now rewrite andb_false_r].
Qed.

Lemma lowerFrom_tabled (pre s : jsstring) :
  forallb tabled s = true -> lowerFrom pre s = map asciiLower s.
Proof.
  revert pre. induction s as [|x s IH]; intros pre Hs; simpl in *.
  - reflexivity.
  - apply andb_true_iff in Hs as [Hx Hs].
    rewrite lowerAt_tabled by assumption. simpl. now rewrite IH.
Qed.

Lemma toLowerCase_tabled (s : jsstring) :
  forallb tabled s = true -> toLowerCase s = map asciiLower s.
Proof. apply lowerFrom_tabled. Qed.

Lemma lowerFrom_plain_app (pre t b : jsstring) :
  forallb plain t = true ->
  lowerFrom pre (t ++ b) = t ++ lowerFrom (pre ++ t) b.
Proof.
  revert pre. induction t as [|x t IH]; intros pre Ht; simpl in *.
  - now rewrite app_nil_r.
  - apply andb_true_iff in Ht as [Hx Ht].
    apply andb_true_iff in Hx as [Hlt Hx].
    apply N.ltb_lt in Hlt. apply N.eqb_eq in Hx.
    rewrite lowerAt_ascii, Hx, IH, <- app_assoc by assumption.
    reflexivity.
Qed.

Lemma includes_app_l (u v t : jsstring) :
  includes v t = true -> includes (u ++ v) t = true.
Proof.
  rewrite !includes_app. intros [a [b ->]].
  exists (u ++ a), b. now rewrite <- app_assoc.
Qed.

(** A lower-case ASCII word that occurs in the question occurs in the
    lower-cased question. *)
Lemma includes_containsCI (question t : jsstring) :
  forallb plain t = true ->
  includes question t = true -> containsCI question t = true.
Proof.
  intros Ht Hin. apply includes_app in Hin as [a [b ->]].
  unfold containsCI, toLowerCase. generalize (@nil N) as pre.
  induction a as [|x a IH]; intros pre.
  - simpl. rewrite lowerFrom_plain_app by assumption.
    apply includes_app. now exists [], (lowerFrom (pre ++ t) b).
  - simpl. apply includes_app_l, IH.
Qed.

End StringFacts.

(* ================================================================= *)
(** ** Facts about the classifier *)

Section ClassifierFacts.
Context {unicode : CaseMapping}.

(** On a question of ASCII units and mathematical operators the
    classifier does not depend on the case tables. *)
Lemma hasMathKeyword_tabled (question : jsstring) :
  forallb tabled question = true ->
  hasMathKeyword question
  = hasMathKeyword (unicode := basicCaseMapping) question.
Proof.
  intros H. unfold hasMathKeyword.
  now rewrite (toLowerCase_tabled question H),
    (toLowerCase_tabled (unicode := basicCaseMapping) question H).
Qed.

Lemma classify_tabled (question : jsstring) :
  forallb tabled question = true ->
  classifyMathQuestion question
  = classifyMathQuestion (unicode := basicCaseMapping) question.
Proof.
  intros H. unfold classifyMathQuestion.
  now rewrite (hasMathKeyword_tabled question H),
    (toLowerCase_tabled question H),
    (toLowerCase_tabled (unicode := basicCaseMapping) question H).
Qed.

Ltac case_includes :=
  repeat match goal with
  | |- context [includes ?q ?t] =>
    destruct (includes q t); cbn [orb]; try reflexivity
  end.

Lemma classify_gate_true (question : jsstring) :
  passesGate question = true ->
  classifyMathQuestion question = firstMatch (toLowerCase question) rules.
Proof.
  unfold passesGate, classifyMathQuestion. intros ->.
  generalize (toLowerCase question) as q. intros q.
  unfold rules, firstMatch, some. cbn [map existsb].
  case_includes.
Qed.

Lemma classify_gate_false (question : jsstring) :
  passesGate question = false ->
  classifyMathQuestion question = js "unknown".
Proof. unfold passesGate, classifyMathQuestion. now intros ->. Qed.

Lemma firstMatch_none (q : jsstring) rs :
  (forall t, In t (flat_map fst rs) -> includes q t = false) ->
  firstMatch q rs = js "math".
Proof.
  induction rs as [|[triggers tag] rs IH]; intros Hnone; simpl.
  - reflexivity.
  - destruct (some _ triggers) eqn:Hsome.
    + apply existsb_exists in Hsome as [t [Ht Hin]].
      rewrite Hnone in Hin; [discriminate|].
      simpl. apply in_or_app. now left.
    + apply IH. intros t Ht. apply Hnone. simpl. apply in_or_app. now right.
Qed.

(** A question that contains a keyword, and no trigger of a rule
    before the keyword's own, is settled by the keyword's rule. *)
Lemma firstMatch_keyword (q keyword : jsstring) rs :
  includes q keyword = true ->
  (forall t, In t (overriding keyword rs) -> includes q t = false) ->
  firstMatch q rs = firstMatch keyword rs.
Proof.
  intros Hkw. induction rs as [|[triggers tag] rs IH]; intros Hover; simpl in *.
  - reflexivity.
  - destruct (some (fun t => includes keyword t) triggers) eqn:Hk.
    + apply existsb_exists in Hk as [t [Ht Hin]].
      replace (some (fun t => includes q t) triggers) with true; [reflexivity|].
      symmetry. apply existsb_exists. exists t. split; [assumption|].
      now apply includes_trans with keyword.
    + replace (some (fun t => includes q t) triggers) with false.
      * apply IH. intros t Ht. apply Hover. apply in_or_app. now right.
      * symmetry. apply not_true_is_false. intros Hq.
        apply existsb_exists in Hq as [t [Ht Hin]].
        rewrite Hover in Hin; [discriminate|]. apply in_or_app. now left.
Qed.

Lemma firstMatch_tag (q : jsstring) :
  In (firstMatch q rules) (removelast tags).
Proof.
  unfold rules, firstMatch.
  repeat match goal with
  | |- context [some ?f ?l] => destruct (some f l)
  end; vm_compute; tauto.
Qed.

Lemma keyword_passesGate (question keyword : jsstring) :
  In keyword mathKeywords -> containsCI question keyword = true ->
  passesGate question = true.
Proof.
  intros Hin Hq. unfold passesGate, hasMathKeyword.
  replace (some _ mathKeywords) with true; [reflexivity|].
  symmetry. apply existsb_exists. now exists keyword.
Qed.

Lemma symbol_passesGate (question symbol : jsstring) :
  In symbol mathSymbols -> includes question symbol = true ->
  passesGate question = true.
Proof.
  intros Hin Hq. unfold passesGate, hasMathSymbol.
  replace (some _ mathSymbols) with true; [now rewrite orb_true_r|].
  symmetry. apply existsb_exists. now exists symbol.
Qed.

End ClassifierFacts.

(* ================================================================= *)
(** ** Properties of the classifier *)

Section ClassifierProperties.
Context {unicode : CaseMapping}.

(** C1, as the code has it.  A question that contains a math keyword,
    letter case set aside, and no trigger of a rule that comes before
    the keyword's own rule, gets the keyword's tag.  The tag of a
    keyword is that of the first rule one of whose triggers occurs in
    the keyword, and "math" when there is none: "derivative" has the
    tag "calculus", so "find the derivative of x^2" is tagged
    "calculus"; "integral" contains none of the triggers of rule 1 (the
    integral sign, "integrate", "integration") nor of any other rule,
    and its tag is "math". *)
Theorem keyword_gets_its_tag :
  (forall question keyword,
     In keyword mathKeywords ->
     containsCI question keyword = true ->
     (forall t, In t (overriding keyword rules) ->
                containsCI question t = false) ->
     classifyMathQuestion question = tagOfKeyword keyword)
  /\ tagOfKeyword (js "derivative") = js "calculus"
  /\ classifyMathQuestion (js "find the derivative of x^2") = js "calculus"
  /\ tagOfKeyword (js "solve") = js "math"
  /\ tagOfKeyword (js "integral") = js "math"
  /\ overriding (js "integral") rules = flat_map fst rules.
Proof.
  split; [|split; [|split; [|split; [|split]]]].
  - intros question keyword Hin Hkw Hover.
    rewrite classify_gate_true by now apply keyword_passesGate with keyword.
    now apply firstMatch_keyword.
  - reflexivity.
  - now rewrite classify_tabled.
  - reflexivity.
  - reflexivity.
  - reflexivity.
Qed.

(** C2.  A question that passes the math gate gets the tag of the first
    rule, in the order integrals, calculus, linear_algebra,
    trigonometry, geometry, statistics, that has a trigger in the
    lower-cased question, and "math" when no rule has one.  The
    question "∫ x dx" is tagged "integrals", and so is every question
    that contains both "integrate" and "derivative". *)
Theorem first_matching_rule :
  (forall question,
     passesGate question = true ->
     classifyMathQuestion question = firstMatch (toLowerCase question) rules)
  /\ map snd rules = map js ["integrals"; "calculus"; "linear_algebra";
                             "trigonometry"; "geometry"; "statistics"]%string
  /\ classifyMathQuestion (js "∫ x dx") = js "integrals"
  /\ (forall question,
        containsCI question (js "integrate") = true ->
        containsCI question (js "derivative") = true ->
        classifyMathQuestion question = js "integrals")
  /\ (forall question,
        includes question (js "integrate") = true ->
        includes question (js "derivative") = true ->
        classifyMathQuestion question = js "integrals").
Proof.
  assert (Hboth : forall question,
            containsCI question (js "integrate") = true ->
            containsCI question (js "derivative") = true ->
            classifyMathQuestion question = js "integrals").
  { intros question Hint Hder.
    rewrite classify_gate_true.
    - unfold containsCI in Hint. unfold rules, firstMatch, some.
      cbn [map existsb]. rewrite Hint. now rewrite orb_true_r.
    - apply keyword_passesGate with (js "derivative"); [|assumption].
      vm_compute. tauto. }
  split; [|split; [|split; [|split]]].
  - apply classify_gate_true.
  - reflexivity.
  - now rewrite classify_tabled.
  - exact Hboth.
  - intros question Hint Hder.
    apply Hboth; apply includes_containsCI; trivial.
Qed.

(** C5.  "what is the capital of France?" is tagged "unknown": it has
    no math keyword, no math symbol, and fails the test for an
    expression together with a variable. *)
Theorem capital_of_France_unknown :
  let question := js "what is the capital of France?" in
  classifyMathQuestion question = js "unknown"
  /\ hasMathKeyword question = false
  /\ hasMathSymbol question = false
  /\ hasMathExpression question && hasVariables question = false.
Proof.
  cbv zeta. split; [|split; [|split]].
  - now rewrite classify_tabled.
  - now rewrite hasMathKeyword_tabled.
  - reflexivity.
  - reflexivity.
Qed.

(** C6.  The classifier returns a tag for every string, and the tag is
    "unknown" exactly when the question has no math keyword, no math
    symbol, and fails the test for an expression together with a
    variable.  The empty string is tagged "unknown". *)
Theorem unknown_iff_gate_fails :
  (forall question,
     In (classifyMathQuestion question) tags
     /\ (classifyMathQuestion question = js "unknown" <->
         hasMathKeyword question = false
         /\ hasMathSymbol question = false
         /\ hasMathExpression question && hasVariables question = false))
  /\ classifyMathQuestion (js "") = js "unknown".
Proof.
  split.
  - intros question. destruct (passesGate question) eqn:Hgate.
    + rewrite classify_gate_true by assumption.
      pose proof (firstMatch_tag (toLowerCase question)) as Htag.
      split.
      * revert Htag. generalize (firstMatch (toLowerCase question) rules).
        intros tag. vm_compute. tauto.
      * split.
        -- intros Hunknown. rewrite Hunknown in Htag. exfalso. revert Htag.
           vm_compute. intuition discriminate.
        -- intros [Hk [Hs He]]. unfold passesGate in Hgate.
           rewrite Hk, Hs, He in Hgate. discriminate.
    + rewrite classify_gate_false by assumption. split.
      * vm_compute. tauto.
      * split; [|reflexivity]. intros _. unfold passesGate in Hgate.
        apply orb_false_iff in Hgate as [Hgate He].
        apply orb_false_iff in Hgate as [Hk Hs]. now repeat split.
  - now rewrite classify_tabled.
Qed.

(** C8.  A question that contains "sin", letter case set aside, and
    none of the triggers of the three rules before the trigonometry
    rule, is tagged "trigonometry"; the word "business" is enough. *)
Theorem sin_substring_trigonometry :
  (forall question,
     containsCI question (js "sin") = true ->
     (forall t, In t (map js ["∫"; "integrate"; "integration"; "derivative";
                              "differentiate"; "d/dx"; "matrix";
                              "determinant"]%string) ->
                containsCI question t = false) ->
     classifyMathQuestion question = js "trigonometry")
  /\ classifyMathQuestion (js "business") = js "trigonometry"
  /\ classifyMathQuestion (js "How do I grow my business?") = js "trigonometry".
Proof.
  split; [|split].
  - intros question Hsin Hnone.
    rewrite classify_gate_true.
    + rewrite (@firstMatch_keyword (toLowerCase question) (js "sin") rules);
        [reflexivity | assumption | exact Hnone].
    + apply keyword_passesGate with (js "sin"); [|assumption].
      vm_compute. tauto.
  - now rewrite classify_tabled.
  - now rewrite classify_tabled.
Qed.

(** C9.  The classifier returns one of eight tags, all different and
    each of them returned for some question, and never "general". *)
Theorem eight_tags :
  (forall question,
     In (classifyMathQuestion question) tags
     /\ classifyMathQuestion question <> js "general")
  /\ tags = map js ["integrals"; "calculus"; "linear_algebra";
                    "trigonometry"; "geometry"; "statistics"; "math";
                    "unknown"]%string
  /\ NoDup tags
  /\ Forall (fun tag => exists question, classifyMathQuestion question = tag)
            tags.
Proof.
  assert (Hin : forall question, In (classifyMathQuestion question) tags).
  { intros question. destruct (passesGate question) eqn:Hgate.
    - rewrite classify_gate_true by assumption.
      pose proof (firstMatch_tag (toLowerCase question)) as Htag.
      revert Htag. generalize (firstMatch (toLowerCase question) rules).
      intros tag. vm_compute. tauto.
    - rewrite classify_gate_false by assumption. vm_compute. tauto. }
  split; [|split; [|split]].
  - intros question. split; [apply Hin|].
    intros Hgeneral. specialize (Hin question). rewrite Hgeneral in Hin.
    revert Hin. vm_compute. intuition discriminate.
  - reflexivity.
  - unfold tags. cbn [map].
    repeat (constructor; [vm_compute; intuition discriminate|]). constructor.
  - unfold tags. cbn [map].
    repeat match goal with
    | |- Forall _ (_ :: _) => constructor
    | |- Forall _ [] => constructor
    end.
    + exists (js "integrate x = 1"). now rewrite classify_tabled.
    + exists (js "derivative"). now rewrite classify_tabled.
    + exists (js "matrix"). now rewrite classify_tabled.
    + exists (js "sin"). now rewrite classify_tabled.
    + exists (js "area"). now rewrite classify_tabled.
    + exists (js "probability"). now rewrite classify_tabled.
    + exists (js "solve"). now rewrite classify_tabled.
    + exists (js ""). now rewrite classify_tabled.
Qed.

(** C10.  A question that contains the character "-" is not tagged
    "unknown": "-" is one of the math symbols looked for in the
    question as it was given.  When no rule has a trigger in it, the
    tag is "math", as for "a well-known story". *)
Theorem hyphen_is_math :
  (forall question,
     includes question (js "-") = true ->
     classifyMathQuestion question <> js "unknown"
     /\ ((forall t, In t (flat_map fst rules) ->
                    containsCI question t = false) ->
         classifyMathQuestion question = js "math"))
  /\ In (js "-") mathSymbols
  /\ classifyMathQuestion (js "a well-known story") = js "math".
Proof.
  split; [|split].
  - intros question Hminus.
    assert (Hgate : passesGate question = true).
    { apply symbol_passesGate with (js "-"); [|assumption].
      vm_compute. tauto. }
    rewrite classify_gate_true by assumption. split.
    + pose proof (firstMatch_tag (toLowerCase question)) as Htag.
      intros Hunknown. rewrite Hunknown in Htag. revert Htag.
      vm_compute. intuition discriminate.
    + intros Hnone. now apply firstMatch_none.
  - vm_compute. tauto.
  - now rewrite classify_tabled.
Qed.

End ClassifierProperties.

(* ================================================================= *)
(** ** Properties of the handlers *)

Import Server.

Section HandlerFacts.

Lemma resolverCalls_app (a b : list event) :
  resolverCalls (a ++ b) = resolverCalls a ++ resolverCalls b.
Proof. apply flat_map_app. Qed.

Lemma resolverCalls_inside (callee : string) (steps : list step) :
  resolverCalls (map (Inside callee) steps) = [].
Proof. induction steps; [reflexivity | assumption]. Qed.

Lemma resolverCalls_cons (e : event) (l : list event) :
  resolverCalls (e :: l) = resolverCalls [e] ++ resolverCalls l.
Proof. apply (resolverCalls_app [e] l). Qed.

Lemma responses_app (a b : list event) :
  responses (a ++ b) = responses a ++ responses b.
Proof. apply flat_map_app. Qed.

Lemma responses_inside (callee : string) (steps : list step) :
  responses (map (Inside callee) steps) = [].
Proof. induction steps; [reflexivity | assumption]. Qed.

End HandlerFacts.

Section HandlerProperties.
Context {unicode : CaseMapping}.
Import Resolver.

Local Arguments js : simpl never.

Ltac run_handler :=
  unfold ask, askImage, tryCatch, bind, ret, throw, emit, destructure,
    respond, consoleError, invoke, readFileSync, unlinkSync, existsSync.

(** The runs of [ask], case by case. *)
Lemma ask_run (imports : Imports) (req : request) (files : fs) :
  ask imports req files =
  match body req with
  | Undefined | Null =>
    ([ConsoleError [Str (js "❌ Server Error:");
                    Str (js "Cannot destructure property of req.body")];
      Respond 500 internalServerError], files, inr tt)
  | b =>
    let question := get b "question" in
    let options := Object [("language", get b "language")]%string in
    if truthy question then
      match Server.resolveQuery imports question options files with
      | (steps, files', inr result) =>
        (Invoked "resolveQuery" [question; options]
         :: map (Inside "resolveQuery") steps ++ [Respond 200 result],
         files', inr tt)
      | (steps, files', inl thrown) =>
        match thrown with
        | Undefined | Null =>
          (Invoked "resolveQuery" [question; options]
           :: map (Inside "resolveQuery") steps ++ [],
           files', inl messageTypeError)
        | _ =>
          (Invoked "resolveQuery" [question; options]
           :: map (Inside "resolveQuery") steps
           ++ [ConsoleError [Str (js "❌ Server Error:");
                             get thrown "message"];
               Respond 500 internalServerError],
           files', inr tt)
        end
      end
    else ([Respond 400 questionRequired], files, inr tt)
  end.
Proof.
  destruct req as [b f]. cbn [body].
  destruct b; unfold ask, tryCatch, bind, ret, throw, emit, destructure,
    respond, consoleError, invoke, messageOf; cbn; try reflexivity.
  destruct (truthy (lookupField "question" fields)); cbn; [|reflexivity].
  destruct (Server.resolveQuery imports _ _ files)
    as [[steps files'] [thrown|result]]; [|reflexivity].
  destruct thrown; reflexivity.
Qed.

Lemma rejected_intro (evs : list event) (files : fs) status body msg :
  responses evs = [(status, body)] ->
  get body "success" = Boolean false ->
  get body "error" = Str msg ->
  msg <> [] ->
  rejected (evs, files, inr tt).
Proof.
  intros H1 H2 H3 H4. split; [reflexivity|]. now exists status, body, msg.
Qed.

(** C3.  A request to /ask whose question is missing or empty gets,
    at once, the response [success:false] with the error "Question is
    required", and the resolver is not called.  A question that is only
    white space is handed to the resolver, which answers
    [success:false] with the error "empty input" before it classifies,
    looks up or generates. *)
Theorem empty_question_rejected :
  (forall imports req files,
     truthy (get (body req) "question") = false ->
     rejected (ask imports req files)
     /\ resolverCalls (eventsOf (ask imports req files)) = []
     /\ resolverSteps (eventsOf (ask imports req files)) = []
     /\ (body req <> Undefined -> body req <> Null ->
         ask imports req files
         = ([Respond 400 questionRequired], files, inr tt)))
  /\ (forall lookup generate imports req files text,
        get (body req) "question" = Str text ->
        blank text = true ->
        rejected (ask (withResolver lookup generate imports) req files)
        /\ resolverSteps
             (eventsOf (ask (withResolver lookup generate imports) req files))
           = []).
Proof.
  split.
  - intros imports req files Hfalsy. rewrite ask_run.
    destruct (body req) eqn:Hbody; cbn zeta; cbn [get] in *;
      try rewrite Hfalsy;
      (split; [|split; [|split]]); try reflexivity; try congruence;
      (eapply rejected_intro; [reflexivity..|discriminate]).
  - intros lookup generate imports req files text Hq Hblank.
    rewrite ask_run.
    destruct (body req) eqn:Hbody; try discriminate Hq.
    cbn zeta. rewrite Hq. destruct text as [|c text].
    + cbn [truthy]. split; [|reflexivity].
      eapply rejected_intro; [reflexivity..|discriminate].
    + cbn [truthy withResolver Server.resolveQuery].
      unfold resolveQuery. rewrite Hblank. unfold ret. cbn [map app].
      split; [|reflexivity].
      eapply rejected_intro; [reflexivity..|discriminate].
Qed.

(** When the resolver called by /ask throws a value other than
    [undefined] and [null], an [Error] object for one, the handler
    catches it and responds with status 500, [success:false] and the
    error "Internal server error"; the handler itself returns
    normally. *)
Lemma resolver_failure_answered (imports : Imports) (req : request)
  (files files' : fs) (steps : list step) (thrown : value) :
  truthy (get (body req) "question") = true ->
  Server.resolveQuery imports (get (body req) "question")
    (Object [("language", get (body req) "language")]%string) files
  = (steps, files', inl thrown) ->
  thrown <> Undefined -> thrown <> Null ->
  ask imports req files
  = (Invoked "resolveQuery"
       [get (body req) "question";
        Object [("language", get (body req) "language")]%string]
     :: map (Inside "resolveQuery") steps
     ++ [ConsoleError [Str (js "❌ Server Error:"); get thrown "message"];
         Respond 500 internalServerError],
     files', inr tt)
  /\ rejected (ask imports req files)
  /\ get internalServerError "error" = Str (js "Internal server error").
Proof.
  intros Htruthy Hthrows Hu Hn. rewrite ask_run.
  destruct (body req) eqn:Hbody; try discriminate Htruthy.
  cbn zeta. rewrite Htruthy, Hthrows.
  destruct thrown; try congruence;
    (split; [reflexivity|]; split; [|reflexivity];
     eapply rejected_intro with (status := 500%Z) (body := internalServerError);
       [|reflexivity|reflexivity|discriminate];
     change (Invoked ?c ?a :: ?l ++ ?r) with ([Invoked c a] ++ l ++ r);
     now rewrite !responses_app, responses_inside).
Qed.


(** The run of [askImage] up to the call of the resolver. *)
Lemma askImage_run (imports : Imports) (req : request) (f : upload)
  (files files1 : fs) (content : list N) (steps : list step)
  (result : imageResult) :
  file req = Some f ->
  readFile (path f) files = Some content ->
  processImage imports (imageToBase64 imports content (mimetype f))
    (mimetype f) files = (steps, files1, inr result) ->
  readFile (path f) files1 <> None ->
  ir_success result = true ->
  let text := ir_text result in
  let options :=
    Object [("context", Str (imageProvenance ++ text)%list)]%string in
  exists rsteps files2 routcome rest files3 outcome,
    Server.resolveQuery imports (Str text) options
      (removeFile (path f) files1) = (rsteps, files2, routcome)
    /\ askImage imports req files
       = (Invoked "processImage"
            [Str (imageToBase64 imports content (mimetype f));
             Str (mimetype f)]
          :: map (Inside "processImage") steps
          ++ Invoked "resolveQuery" [Str text; options]
          :: map (Inside "resolveQuery") rsteps ++ rest,
          files3, outcome)
    /\ resolverCalls rest = []
    /\ (routcome <> inl Undefined -> routcome <> inl Null ->
        outcome = inr tt).
Proof.
  intros Hfile Hread Hocr Hstill Hsuccess text options.
  destruct req as [b fl]. cbn [file] in *. subst fl.
  run_handler. unfold messageOf, throw, ret. cbn [file].
  rewrite Hread, Hocr.
  destruct (readFile (path f) files1) eqn:Hthere; [|congruence].
  rewrite Hsuccess. cbn.
  destruct (Server.resolveQuery imports _ _ _)
    as [[rsteps files2] [thrown|answer]] eqn:Hres; cbn.
  - destruct thrown; cbn;
      try (destruct (readFile (path f) files2) eqn:Hf2; cbn; rewrite ?Hf2; cbn);
      rewrite <- ?app_assoc; cbn [app];
      eexists rsteps, files2, _, _, _, _;
      (split; [reflexivity|]);
      (split; [try reflexivity; rewrite app_nil_r; reflexivity|]);
      (split; [reflexivity|]); intros Hu Hn; congruence.
  - rewrite <- ?app_assoc. cbn [app].
    eexists rsteps, files2, _, _, _, _.
    split; [reflexivity|]. split; [reflexivity|]. split; reflexivity.
Qed.

(** C7.  When an image has been uploaded and read, and its OCR
    succeeds, the handler calls the resolver once, with the extracted
    text and with a context that is the sentence "This question was
    extracted from an image. Original extracted text: " followed by the
    extracted text as it is.  The handler returns normally, unless the
    resolver's promise is rejected with [undefined] or [null]. *)
Theorem image_context_has_extracted_text (imports : Imports)
  (req : request) (f : upload) (files files1 : fs) (content : list N)
  (steps : list step) (result : imageResult) :
  file req = Some f ->
  readFile (path f) files = Some content ->
  processImage imports (imageToBase64 imports content (mimetype f))
    (mimetype f) files = (steps, files1, inr result) ->
  readFile (path f) files1 <> None ->
  ir_success result = true ->
  let context := imageProvenance ++ ir_text result in
  resolverCalls (eventsOf (askImage imports req files))
  = [[Str (ir_text result); Object [("context", Str context)]%string]]
  /\ includes context (ir_text result) = true
  /\ startsWith context imageProvenance = true
  /\ includes imageProvenance (js "extracted from an image") = true
  /\ ((forall rsteps files2 thrown,
         Server.resolveQuery imports (Str (ir_text result))
           (Object [("context", Str context)]%string)
           (removeFile (path f) files1) = (rsteps, files2, inl thrown) ->
         thrown <> Undefined /\ thrown <> Null) ->
      snd (askImage imports req files) = inr tt).
Proof.
  intros Hfile Hread Hocr Hstill Hsuccess context.
  edestruct askImage_run
    as [rsteps [files2 [routcome [rest [files3 [outcome
         [Hres [Hrun [Hrest Hout]]]]]]]]];
    [exact Hfile | exact Hread | exact Hocr | exact Hstill | exact Hsuccess |].
  rewrite Hrun. unfold eventsOf. cbn [fst snd].
  split; [|split; [|split; [|split]]].
  - rewrite (resolverCalls_cons (Invoked "processImage" _)),
      resolverCalls_app, (resolverCalls_cons (Invoked "resolveQuery" _)),
      resolverCalls_app, !resolverCalls_inside, Hrest.
    reflexivity.
  - apply includes_app_r.
  - apply startsWith_app. now exists (ir_text result).
  - reflexivity.
  - intros Hthrown. apply Hout.
    + intros ->. destruct (Hthrown _ _ _ Hres) as [Hu _]. congruence.
    + intros ->. destruct (Hthrown _ _ _ Hres) as [_ Hn]. congruence.
Qed.

End HandlerProperties.

(* ================================================================= *)
(** ** The properties at sample inputs *)

Import Samples Resolver.

(** C1, as stated, fails: "the integral of x" contains the keyword
    "integral" and no trigger of any rule, and is tagged "math", not
    "integrals". *)
Lemma integral_keyword_not_integrals :
  In (js "integral") mathKeywords
  /\ containsCI (unicode := basicCaseMapping)
       (js "the integral of x") (js "integral") = true
  /\ forallb (fun t => negb (containsCI (unicode := basicCaseMapping)
                                (js "the integral of x") t))
             (flat_map fst rules) = true
  /\ classifyMathQuestion (unicode := basicCaseMapping)
       (js "the integral of x") = js "math"
  /\ classifyMathQuestion (unicode := basicCaseMapping)
       (js "the integral of x") <> js "integrals".
Proof.
  split; [vm_compute; tauto|].
  split; [reflexivity|]. split; [reflexivity|]. split; [reflexivity|].
  vm_compute. discriminate.
Qed.

(** The keyword "integral" in "the integral of x". *)
Lemma keyword_gets_its_tag_witness :
  In (js "integral") mathKeywords
  /\ containsCI (unicode := basicCaseMapping)
       (js "the integral of x") (js "integral") = true
  /\ classifyMathQuestion (unicode := basicCaseMapping)
       (js "the integral of x") = tagOfKeyword (js "integral").
Proof.
  split; [vm_compute; tauto|]. split; [reflexivity|].
  apply (proj1 (@keyword_gets_its_tag basicCaseMapping)).
  - vm_compute. tauto.
  - reflexivity.
  - intros t Ht. vm_compute in Ht.
    repeat (destruct Ht as [<- | Ht]; [reflexivity|]). destruct Ht.
Defined.

(** The questions "x + 1 = 3" and "Integrate the Derivative of x". *)
Lemma first_matching_rule_witness :
  passesGate (unicode := basicCaseMapping) (js "x + 1 = 3") = true
  /\ classifyMathQuestion (unicode := basicCaseMapping) (js "x + 1 = 3")
     = firstMatch (toLowerCase (unicode := basicCaseMapping) (js "x + 1 = 3"))
         rules
  /\ classifyMathQuestion (unicode := basicCaseMapping)
       (js "Integrate the Derivative of x") = js "integrals".
Proof.
  split; [reflexivity|]. split.
  - apply (proj1 (@first_matching_rule basicCaseMapping)). reflexivity.
  - apply (proj1 (proj2 (proj2 (proj2
             (@first_matching_rule basicCaseMapping))))); reflexivity.
Defined.

(** The question "Business is good". *)
Lemma sin_substring_trigonometry_witness :
  containsCI (unicode := basicCaseMapping)
    (js "Business is good") (js "sin") = true
  /\ classifyMathQuestion (unicode := basicCaseMapping)
       (js "Business is good") = js "trigonometry".
Proof.
  split; [reflexivity|].
  apply (proj1 (@sin_substring_trigonometry basicCaseMapping)).
  - reflexivity.
  - intros t Ht. vm_compute in Ht.
    repeat (destruct Ht as [<- | Ht]; [reflexivity|]). destruct Ht.
Defined.

(** The question "a well-known story". *)
Lemma hyphen_is_math_witness :
  includes (js "a well-known story") (js "-") = true
  /\ classifyMathQuestion (unicode := basicCaseMapping)
       (js "a well-known story") <> js "unknown"
  /\ classifyMathQuestion (unicode := basicCaseMapping)
       (js "a well-known story") = js "math".
Proof.
  split; [reflexivity|].
  destruct (proj1 (@hyphen_is_math basicCaseMapping)
              (js "a well-known story") eq_refl) as [Hnot Hmath].
  split; [exact Hnot|].
  apply Hmath. intros t Ht. vm_compute in Ht.
  repeat (destruct Ht as [<- | Ht]; [reflexivity|]). destruct Ht.
Defined.

(** An empty question, a missing one and one of three spaces. *)
Lemma empty_question_rejected_witness :
  rejected (ask (sampleImports echoResolver) (askRequest (Str (js ""))) [])
  /\ rejected (ask (sampleImports echoResolver) (askRequest Undefined) [])
  /\ rejected
       (ask (withResolver (unicode := basicCaseMapping) noReference
               sampleGenerate (sampleImports echoResolver))
            (askRequest (Str (js "   "))) []).
Proof.
  split; [|split].
  - exact (proj1 (proj1 (@empty_question_rejected basicCaseMapping)
                    (sampleImports echoResolver) (askRequest (Str (js "")))
                    [] eq_refl)).
  - exact (proj1 (proj1 (@empty_question_rejected basicCaseMapping)
                    (sampleImports echoResolver) (askRequest Undefined)
                    [] eq_refl)).
  - exact (proj1 (proj2 (@empty_question_rejected basicCaseMapping)
                    noReference sampleGenerate (sampleImports echoResolver)
                    (askRequest (Str (js "   "))) [] (js "   ")
                    eq_refl eq_refl)).
Defined.

(** The question "2 + 2" with a resolver that times out. *)
Lemma resolver_failure_answered_witness :
  truthy (get (body (askRequest (Str (js "2 + 2")))) "question") = true
  /\ rejected (ask (sampleImports failingResolver)
                 (askRequest (Str (js "2 + 2"))) []).
Proof.
  split; [reflexivity|].
  refine (proj1 (proj2 (@resolver_failure_answered
            (sampleImports failingResolver) (askRequest (Str (js "2 + 2")))
            [] [] [Generation [] [] []]
            (thrownError {| message := js "Request timed out." |})
            eq_refl eq_refl _ _))); discriminate.
Defined.


(** An uploaded image in which the OCR reads "2 + 2 = ?". *)
Lemma image_context_has_extracted_text_witness :
  resolverCalls
    (eventsOf (askImage (sampleImports echoResolver) imageRequest sampleFiles))
  = [[Str (js "2 + 2 = ?");
      Object [("context",
               Str (imageProvenance ++ js "2 + 2 = ?")%list)]%string]].
Proof.
  refine (proj1 (@image_context_has_extracted_text
            (sampleImports echoResolver) imageRequest sampleUpload
            sampleFiles sampleFiles [0x89; 0x50; 0x4E; 0x47] [Extraction]
            {| ir_success := true; ir_text := js "2 + 2 = ?";
               ir_error := Undefined |}
            eq_refl eq_refl eq_refl _ eq_refl)).
  vm_compute. discriminate.
Defined.

(* ================================================================= *)
(** ** The patterns of the classifier in closed form *)

Import CharForms.

(** Tests on one code unit are settled by arithmetic. *)
Ltac split_tests :=
  repeat match goal with
  | H : context [?a <=? ?b] |- _ => destruct (N.leb_spec a b); cbn [andb orb negb] in H
  | H : context [?a <? ?b] |- _ => destruct (N.ltb_spec a b); cbn [andb orb negb] in H
  | H : context [?a =? ?b] |- _ => destruct (N.eqb_spec a b); cbn [andb orb negb] in H
  | |- context [?a <=? ?b] => destruct (N.leb_spec a b); cbn [andb orb negb]
  | |- context [?a <? ?b] => destruct (N.ltb_spec a b); cbn [andb orb negb]
  | |- context [?a =? ?b] => destruct (N.eqb_spec a b); cbn [andb orb negb]
  end.

Ltac members_of H :=
  apply existsb_exists in H as [?m [?Hin ?Heq]];
  apply N.eqb_eq in Heq; vm_compute in Hin.

Ltac prune_tests :=
  repeat match goal with
  | |- context [?a <=? ?b] =>
    destruct (N.leb_spec a b); cbn [andb orb negb]; try lia
  | |- context [?a =? ?b] =>
    destruct (N.eqb_spec a b); cbn [andb orb negb]; try lia
  end.

Section PatternFacts.

Lemma variablesRe_alternatives :
  variablesRe
  = Alt letterThenOperatorRe (Alt operatorThenLetterRe wholeWordVariableRe).
Proof. reflexivity. Qed.

Lemma existsb_swap {A B} (f : A -> B -> bool) (l : list A) (m : list B) :
  existsb (fun a => existsb (f a) m) l
  = existsb (fun b => existsb (fun a => f a b) l) m.
Proof.
  induction l as [|a l IH]; simpl.
  - induction m; [reflexivity | assumption].
  - rewrite IH. clear IH. induction m as [|b m IH]; simpl.
    + reflexivity.
    + rewrite <- IH. now destruct (f a b), (existsb (f a) m),
        (existsb (fun a0 => f a0 b) l).
Qed.

Lemma includes_unit (s : jsstring) (u : N) :
  includes s [u] = existsb (fun c => c =? u) s.
Proof.
  induction s as [|c s IH]; [reflexivity|].
  cbn [includes existsb]. rewrite IH. cbn [startsWith].
  destruct s; now rewrite andb_true_r.
Qed.

Lemma search_charset (i : bool) (l : list atom) (prev : option N)
  (s : jsstring) :
  searchFrom i (CharSet l) prev s = existsb (inSet i l) s.
Proof.
  revert prev. induction s as [|c s IH]; intros prev; [reflexivity|].
  cbn [searchFrom matchAt existsb]. now rewrite IH, andb_true_r.
Qed.

Lemma search_split (i : bool) (r : regex) (prev : option N) (s : jsstring) :
  searchFrom i r prev s = true <->
  exists a b, s = a ++ b
    /\ matchAt i r (prevOf prev a) b (fun _ _ => true) = true.
Proof.
  revert prev. induction s as [|c s IH]; intros prev.
  - cbn [searchFrom]. rewrite orb_false_r. split.
    + intros H. now exists [], [].
    + intros [a [b [Hs H]]]. symmetry in Hs.
      apply app_eq_nil in Hs as [-> ->]. exact H.
  - cbn [searchFrom]. rewrite orb_true_iff, IH. split.
    + intros [H | [a [b [-> H]]]].
      * now exists [], (c :: s).
      * now exists (c :: a), b.
    + intros [a [b [Hs H]]]. destruct a as [|x a].
      * left. simpl in Hs. subst b. exact H.
      * right. injection Hs as -> ->. now exists a, b.
Qed.


Lemma inSet_operators (c : N) : inSet true operators c = isOperator c.
Proof.
  apply eq_true_iff_eq. split; intros H.
  - members_of H. unfold isOperator, canonicalize in *. cbn [existsb andb] in *.
    split_tests; try discriminate; try reflexivity; lia.
  - unfold inSet. apply existsb_exists. exists c. split.
    + members_of H. vm_compute. lia.
    + apply N.eqb_refl.
Qed.

Lemma inSet_letters (c : N) : inSet true [Rng "a" "z"] c = isLetter c.
Proof.
  apply eq_true_iff_eq. split; intros H.
  - members_of H. unfold isLetter, canonicalize in *. cbn [andb] in *.
    split_tests; try discriminate; try reflexivity; lia.
  - unfold inSet. apply existsb_exists. exists (asciiLower c). split.
    + remember (asciiLower c) as w eqn:Hw. vm_compute.
      unfold isLetter, asciiLower in *. split_tests; try discriminate; lia.
    + apply N.eqb_eq. clear H. unfold asciiLower.
      destruct (N.leb_spec 0x41 c), (N.leb_spec c 0x5A); cbn [andb];
        unfold canonicalize; cbn [andb]; split_tests; lia.
Qed.

Lemma inSet_expression (c : N) :
  inSet false [Digit; Ch "+"; Ch "-"; Ch "*"; Ch "/"; Ch "="; Ch "("; Ch ")";
               Ch "²"; Ch "³"; Ch "√"; Ch "∫"; Ch "∑"] c
  = isExpressionChar c.
Proof.
  apply eq_true_iff_eq. split; intros H.
  - members_of H. unfold isExpressionChar, isDigit, canonicalize in *.
    cbn [existsb andb] in *.
    split_tests; try discriminate; try reflexivity; lia.
  - unfold inSet. apply existsb_exists. exists c. split.
    + unfold isExpressionChar, isDigit in H. cbn [existsb] in H.
      vm_compute. split_tests; try discriminate; lia.
    + apply N.eqb_refl.
Qed.

Lemma inSet_letter (x : string) (c : N) :
  inSet true [Ch x] c
  = (canonicalize true (unit_of x) =? canonicalize true c).
Proof. unfold inSet. cbn [flat_map members app existsb]. apply orb_false_r. Qed.

Lemma isLetter_wordChar (c : N) :
  isLetter c = true -> isWordChar (Some c) = true.
Proof.
  unfold isLetter, isWordChar. intros H.
  split_tests; try discriminate; reflexivity.
Qed.

Lemma isVariableLetter_letter (c : N) :
  isVariableLetter c = true -> isLetter c = true.
Proof.
  unfold isVariableLetter, isLetter, asciiLower. cbn [existsb]. intros H.
  split_tests; try discriminate; try reflexivity; lia.
Qed.


(** The nine alternatives of the whole-word pattern. *)
Lemma variable_letters (c : N) :
  existsb (fun x => canonicalize true (unit_of x) =? canonicalize true c)
    ["x"; "y"; "z"; "a"; "b"; "c"; "n"; "m"; "t"]%string
  = isVariableLetter c.
Proof.
  cbn [existsb].
  change (canonicalize true (unit_of "x")) with 0x58.
  change (canonicalize true (unit_of "y")) with 0x59.
  change (canonicalize true (unit_of "z")) with 0x5A.
  change (canonicalize true (unit_of "a")) with 0x41.
  change (canonicalize true (unit_of "b")) with 0x42.
  change (canonicalize true (unit_of "c")) with 0x43.
  change (canonicalize true (unit_of "n")) with 0x4E.
  change (canonicalize true (unit_of "m")) with 0x4D.
  change (canonicalize true (unit_of "t")) with 0x54.
  unfold isVariableLetter, asciiLower, canonicalize. cbn [existsb andb].
  destruct (N.leb_spec 0x61 c), (N.leb_spec c 0x7A),
    (N.leb_spec 0x41 c), (N.leb_spec c 0x5A); cbn [andb]; try lia;
    prune_tests; reflexivity.
Qed.

Lemma inSet_space (c : N) : inSet true [Space] c = isSpace c.
Proof.
  apply eq_true_iff_eq. split; intros H.
  - members_of H. unfold isSpace. apply existsb_exists. exists c.
    split; [|apply N.eqb_refl]. vm_compute.
    unfold canonicalize in *. cbn [andb] in *.
    split_tests; try discriminate; lia.
  - unfold inSet. apply existsb_exists. exists c. split.
    + members_of H. vm_compute. lia.
    + apply N.eqb_refl.
Qed.

Lemma existsb_pointwise {A} (f g : A -> bool) (l : list A) :
  (forall a, In a l -> f a = g a) -> existsb f l = existsb g l.
Proof.
  induction l as [|a l IH]; intros H; simpl; [reflexivity|].
  rewrite H by now left. rewrite IH; [reflexivity|].
  intros b Hb. apply H. now right.
Qed.

Lemma forallb_pointwise {A} (f g : A -> bool) (l : list A) :
  (forall a, f a = g a) -> forallb f l = forallb g l.
Proof.
  intros H. induction l as [|a l IH]; simpl; [reflexivity|].
  now rewrite H, IH.
Qed.

Lemma existsb_of_map {A B} (f : B -> bool) (g : A -> B) (l : list A) :
  existsb f (map g l) = existsb (fun a => f (g a)) l.
Proof. induction l as [|a l IH]; simpl; [reflexivity | now rewrite IH]. Qed.

(** A starred set consumes members of the set and hands over what is
    left. *)
Lemma star_split (i : bool) (l : list atom) (prev : option N) (s : jsstring)
  (k : option N -> jsstring -> bool) :
  matchAt i (Star l) prev s k = true <->
  exists a t, s = a ++ t /\ forallb (inSet i l) a = true
              /\ k (prevOf prev a) t = true.
Proof.
  cbn [matchAt]. revert prev.
  induction s as [|c s IH]; intros prev.
  - split.
    + intros H. now exists [], [].
    + intros [a [t [Hs [_ H]]]]. symmetry in Hs.
      apply app_eq_nil in Hs as [-> ->]. exact H.
  - rewrite orb_true_iff, andb_true_iff, IH. split.
    + intros [[Hc [a [t [-> [Ha H]]]]] | H].
      * exists (c :: a), t. cbn [forallb prevOf]. rewrite Hc, Ha. now repeat split.
      * now exists [], (c :: s).
    + intros [a [t [Hs [Ha H]]]]. destruct a as [|x a].
      * right. simpl in Hs. subst t. exact H.
      * left. injection Hs as -> ->. cbn [forallb] in Ha.
        apply andb_true_iff in Ha as [Hx Ha]. split; [exact Hx|].
        now exists a, t.
Qed.

Lemma matchAt_seq i r1 r2 prev s k :
  matchAt i (Seq r1 r2) prev s k
  = matchAt i r1 prev s (fun prev' s' => matchAt i r2 prev' s' k).
Proof. reflexivity. Qed.

Lemma matchAt_charset i l prev s k :
  matchAt i (CharSet l) prev s k
  = match s with
    | c :: s' => inSet i l c && k (Some c) s'
    | [] => false
    end.
Proof. reflexivity. Qed.

Lemma matchAt_alt i r1 r2 prev s k :
  matchAt i (Alt r1 r2) prev s k
  = matchAt i r1 prev s k || matchAt i r2 prev s k.
Proof. reflexivity. Qed.

Lemma matchAt_star_nil i l prev k :
  matchAt i (Star l) prev [] k = k prev [].
Proof. reflexivity. Qed.

Lemma matchAt_star_cons i l prev c s k :
  matchAt i (Star l) prev (c :: s) k
  = (inSet i l c && matchAt i (Star l) (Some c) s k) || k prev (c :: s).
Proof. reflexivity. Qed.

(** The first alternative: a letter, white space, an operator. *)
Lemma letterThenOperator_match (prev : option N) (b : jsstring) :
  matchAt true letterThenOperatorRe prev b (fun _ _ => true) = true <->
  exists c ws d rest,
    b = c :: ws ++ d :: rest
    /\ isLetter c = true /\ forallb isSpace ws = true
    /\ isOperator d = true.
Proof.
  unfold letterThenOperatorRe. rewrite matchAt_seq, matchAt_charset.
  destruct b as [|c b].
  - split; [discriminate | intros [c [ws [d [rest [H _]]]]]; discriminate].
  - rewrite matchAt_seq.
    rewrite andb_true_iff, inSet_letters, star_split. split.
    + intros [Hc [ws [t [-> [Hws H]]]]]. cbn [matchAt] in H.
      destruct t as [|d rest]; [discriminate|].
      rewrite andb_true_r, inSet_operators in H.
      exists c, ws, d, rest. repeat split; try assumption.
      rewrite <- Hws. apply forallb_pointwise. intros x. symmetry. apply inSet_space.
    + intros [c' [ws [d [rest [Hb [Hc [Hws Hd]]]]]]]. injection Hb as <- ->.
      split; [exact Hc|]. exists ws, (d :: rest). split; [reflexivity|]. split.
      * rewrite (forallb_pointwise (inSet true [Space]) isSpace ws inSet_space).
        exact Hws.
      * cbn [matchAt]. now rewrite inSet_operators, Hd.
Qed.

(** The second alternative: an operator, white space, a letter. *)
Lemma operatorThenLetter_match (prev : option N) (b : jsstring) :
  matchAt true operatorThenLetterRe prev b (fun _ _ => true) = true <->
  exists d ws c rest,
    b = d :: ws ++ c :: rest
    /\ isOperator d = true /\ forallb isSpace ws = true
    /\ isLetter c = true.
Proof.
  unfold operatorThenLetterRe. rewrite matchAt_seq, matchAt_charset.
  destruct b as [|d b].
  - split; [discriminate | intros [c [ws [d [rest [H _]]]]]; discriminate].
  - rewrite matchAt_seq.
    rewrite andb_true_iff, inSet_operators, star_split. split.
    + intros [Hd [ws [t [-> [Hws H]]]]]. cbn [matchAt] in H.
      destruct t as [|c rest]; [discriminate|].
      rewrite andb_true_r, inSet_letters in H.
      exists d, ws, c, rest. repeat split; try assumption.
      rewrite <- Hws. apply forallb_pointwise. intros x. symmetry. apply inSet_space.
    + intros [d' [ws [c [rest [Hb [Hd [Hws Hc]]]]]]]. injection Hb as <- ->.
      split; [exact Hd|]. exists ws, (c :: rest). split; [reflexivity|]. split.
      * rewrite (forallb_pointwise (inSet true [Space]) isSpace ws inSet_space).
        exact Hws.
      * cbn [matchAt]. now rewrite inSet_letters, Hc.
Qed.

(** The third alternative: one of the nine letters as a whole word. *)
Lemma wholeWordVariable_match (prev : option N) (b : jsstring) :
  matchAt true wholeWordVariableRe prev b (fun _ _ => true)
  = negb (isWordChar prev)
    && match b with
       | c :: rest => isVariableLetter c && negb (isWordChar (hd_error rest))
       | [] => false
       end.
Proof.
  unfold wholeWordVariableRe. cbn [matchAt]. destruct b as [|c rest].
  - cbn [hd_error orb]. now rewrite !andb_false_r.
  - rewrite !inSet_letter. cbn [hd_error].
    rewrite <- variable_letters. cbn [existsb].
    destruct (isWordChar (Some c)) eqn:Hw.
    + destruct (isWordChar prev), (isWordChar (hd_error rest));
        cbn [xorb negb andb]; rewrite ?andb_false_r, ?andb_true_r, ?orb_false_r;
        reflexivity.
    + assert (Hv : existsb
        (fun x => canonicalize true (unit_of x) =? canonicalize true c)
        ["x"; "y"; "z"; "a"; "b"; "c"; "n"; "m"; "t"]%string = false).
      { rewrite variable_letters. apply not_true_is_false. intros Hv.
        apply isVariableLetter_letter, isLetter_wordChar in Hv. congruence. }
      cbn [existsb] in Hv. repeat (apply orb_false_iff in Hv as [-> Hv]).
      cbn [andb orb]. now rewrite !andb_false_r.
Qed.

End PatternFacts.

(* ================================================================= *)
(** ** More properties of the classifier *)

Section GateProperties.
Context {unicode : CaseMapping}.

(** X1.  The expression test finds a digit or one of
    + - * / = ( ) ² ³ √ ∫ ∑ anywhere in the question. *)
Theorem hasMathExpression_chars (question : jsstring) :
  hasMathExpression question = existsb isExpressionChar question.
Proof.
  unfold hasMathExpression, test, mathExpressionRe.
  rewrite search_charset. apply existsb_pointwise.
  intros c _. apply inSet_expression.
Qed.

(** X2.  The symbol test finds one of the twenty-four symbol characters
    anywhere in the question as it was given. *)
Theorem hasMathSymbol_chars (question : jsstring) :
  hasMathSymbol question = existsb isSymbolChar question.
Proof.
  unfold hasMathSymbol, some.
  change mathSymbols with (map (fun u => [u]) symbolUnits).
  rewrite existsb_of_map.
  rewrite (existsb_pointwise _
             (fun u => existsb (fun c => c =? u) question));
    [|intros u _; apply includes_unit].
  rewrite (existsb_swap (fun u c => c =? u)). reflexivity.
Qed.

(** X3.  The variables test succeeds exactly on a question that has a
    letter, then white space or nothing, then one of = + - * /; or one
    of these operators, then white space or nothing, then a letter; or
    one of the letters x y z a b c n m t, in either case, with no
    letter, digit or underscore on either side. *)
Theorem hasVariables_forms (question : jsstring) :
  hasVariables question = true <->
  (exists a c ws d rest,
     question = a ++ c :: ws ++ d :: rest
     /\ isLetter c = true /\ forallb isSpace ws = true
     /\ isOperator d = true)
  \/ (exists a d ws c rest,
        question = a ++ d :: ws ++ c :: rest
        /\ isOperator d = true /\ forallb isSpace ws = true
        /\ isLetter c = true)
  \/ (exists a c rest,
        question = a ++ c :: rest
        /\ isVariableLetter c = true
        /\ isWordChar (prevOf None a) = false
        /\ isWordChar (hd_error rest) = false).
Proof.
  unfold hasVariables, test. rewrite search_split, variablesRe_alternatives.
  split.
  - intros [a [b [Hq H]]]. rewrite !matchAt_alt, !orb_true_iff in H.
    destruct H as [H | [H | H]].
    + left. apply letterThenOperator_match in H
        as [c [ws [d [rest [-> H]]]]]. now exists a, c, ws, d, rest.
    + right. left. apply operatorThenLetter_match in H
        as [d [ws [c [rest [-> H]]]]]. now exists a, d, ws, c, rest.
    + right. right. rewrite wholeWordVariable_match in H.
      apply andb_true_iff in H as [Hp H]. destruct b as [|c rest]; [discriminate|].
      apply andb_true_iff in H as [Hc Hn].
      exists a, c, rest. repeat split; try assumption.
      * now apply negb_true_iff.
      * now apply negb_true_iff.
  - intros [H | [H | H]].
    + destruct H as [a [c [ws [d [rest [-> H]]]]]].
      exists a, (c :: ws ++ d :: rest). split; [reflexivity|].
      rewrite !matchAt_alt, !orb_true_iff. left.
      apply letterThenOperator_match. now exists c, ws, d, rest.
    + destruct H as [a [d [ws [c [rest [-> H]]]]]].
      exists a, (d :: ws ++ c :: rest). split; [reflexivity|].
      rewrite !matchAt_alt, !orb_true_iff. right. left.
      apply operatorThenLetter_match. now exists d, ws, c, rest.
    + destruct H as [a [c [rest [-> [Hc [Hp Hn]]]]]].
      exists a, (c :: rest). split; [reflexivity|].
      rewrite !matchAt_alt, !orb_true_iff. right. right.
      rewrite wholeWordVariable_match, Hc, Hp, Hn. reflexivity.
Qed.

Lemma isOperator_symbol (d : N) :
  isOperator d = true -> isSymbolChar d = true.
Proof.
  unfold isOperator, isSymbolChar. cbn [existsb symbolUnits].
  intros H. split_tests; try discriminate; try reflexivity; lia.
Qed.

Lemma no_symbol_no_operator (question : jsstring) :
  hasMathSymbol question = false ->
  forall d, In d question -> isOperator d = false.
Proof.
  rewrite hasMathSymbol_chars. intros H d Hd.
  apply not_true_is_false. intros Hop.
  assert (existsb isSymbolChar question = true); [|congruence].
  apply existsb_exists. exists d. split; [exact Hd|].
  now apply isOperator_symbol.
Qed.

Lemma expression_without_symbol (c : N) :
  isSymbolChar c = false -> isExpressionChar c = isDigitOrParen c.
Proof.
  unfold isSymbolChar, isExpressionChar, isDigitOrParen, isDigit.
  cbn [existsb symbolUnits]. intros H.
  split_tests; try discriminate; try reflexivity; lia.
Qed.

(** X4.  In the gate, the test for an expression together with a variable
    matters only when the question has no math symbol, and then it
    reduces to: a digit or a parenthesis somewhere, and one of the
    letters x y z a b c n m t as a whole word somewhere.  The first two
    alternatives of the variables pattern need an operator, and every
    operator is a math symbol. *)
Theorem gate_without_symbol (question : jsstring) :
  passesGate question
  = hasMathKeyword question || hasMathSymbol question
    || (existsb isDigitOrParen question
        && test true wholeWordVariableRe question).
Proof.
  unfold passesGate. destruct (hasMathSymbol question) eqn:Hsym.
  - now rewrite !orb_true_r.
  - f_equal. f_equal.
    + rewrite hasMathExpression_chars. apply existsb_pointwise.
      intros c Hc. apply expression_without_symbol.
      rewrite hasMathSymbol_chars in Hsym.
      apply not_true_is_false. intros Hs.
      assert (existsb isSymbolChar question = true); [|congruence].
      apply existsb_exists. now exists c.
    + pose proof (no_symbol_no_operator question Hsym) as Hnone.
      apply eq_true_iff_eq. unfold hasVariables, test.
      rewrite !search_split, variablesRe_alternatives. split.
      * intros [a [b [Hq H]]]. exists a, b. split; [exact Hq|].
        rewrite !matchAt_alt, !orb_true_iff in H.
        destruct H as [H | [H | H]]; [exfalso | exfalso | exact H].
        -- apply letterThenOperator_match in H
             as [c [ws [d [rest [-> [_ [_ Hd]]]]]]].
           rewrite Hnone in Hd; [discriminate|]. subst question.
           apply in_or_app. right. right. apply in_or_app. right. now left.
        -- apply operatorThenLetter_match in H
             as [d [ws [c [rest [-> [Hd _]]]]]].
           rewrite Hnone in Hd; [discriminate|]. subst question.
           apply in_or_app. right. now left.
      * intros [a [b [Hq H]]]. exists a, b. split; [exact Hq|].
        rewrite !matchAt_alt, H. now rewrite !orb_true_r.
Qed.

End GateProperties.

(* ================================================================= *)
(** ** Letter case *)

Section LetterCase.

Lemma asciiLower_idem (c : N) : asciiLower (asciiLower c) = asciiLower c.
Proof.
  unfold asciiLower.
  destruct (N.leb_spec 0x41 c), (N.leb_spec c 0x5A); cbn [andb];
    split_tests; lia.
Qed.

Lemma canonicalize_lower (c : N) :
  canonicalize true (asciiLower c) = canonicalize true c.
Proof.
  unfold asciiLower.
  destruct (N.leb_spec 0x41 c), (N.leb_spec c 0x5A); cbn [andb];
    unfold canonicalize; cbn [andb]; split_tests; lia.
Qed.

Lemma inSet_lower (l : list atom) (c : N) :
  inSet true l (asciiLower c) = inSet true l c.
Proof. unfold inSet. now rewrite canonicalize_lower. Qed.

Lemma isWordChar_lower (p : option N) :
  isWordChar (option_map asciiLower p) = isWordChar p.
Proof.
  destruct p as [c|]; [|reflexivity]. cbn [option_map isWordChar].
  unfold asciiLower.
  destruct (N.leb_spec 0x41 c), (N.leb_spec c 0x5A); cbn [andb];
    prune_tests; reflexivity.
Qed.

Lemma hd_error_map {A B} (f : A -> B) (l : list A) :
  hd_error (map f l) = option_map f (hd_error l).
Proof. now destruct l. Qed.

(** A pattern with the [i] flag matches a text and its lower case
    alike. *)
Lemma matchAt_lower (r : regex) :
  forall prev s k k',
    (forall p t, k' (option_map asciiLower p) (map asciiLower t) = k p t) ->
    matchAt true r (option_map asciiLower prev) (map asciiLower s) k'
    = matchAt true r prev s k.
Proof.
  induction r as [l | r1 IH1 r2 IH2 | r1 IH1 r2 IH2 | l |];
    intros prev s k k' Hk.
  - rewrite !matchAt_charset. destruct s as [|c s]; [reflexivity|].
    cbn [map]. now rewrite inSet_lower, <- Hk.
  - rewrite !matchAt_seq. apply IH1. intros p t. now apply IH2.
  - rewrite !matchAt_alt. now rewrite (IH1 prev s k k' Hk), (IH2 prev s k k' Hk).
  - revert prev. induction s as [|c s IH]; intros prev.
    + cbn [map]. rewrite !matchAt_star_nil. apply (Hk prev []).
    + cbn [map]. rewrite !matchAt_star_cons, inSet_lower.
      change (Some (asciiLower c)) with (option_map asciiLower (Some c)).
      rewrite (IH (Some c)). now rewrite <- (Hk prev (c :: s)).
  - cbn [matchAt]. now rewrite hd_error_map, !isWordChar_lower, <- Hk.
Qed.

Lemma searchFrom_lower (r : regex) (prev : option N) (s : jsstring) :
  searchFrom true r (option_map asciiLower prev) (map asciiLower s)
  = searchFrom true r prev s.
Proof.
  revert prev. induction s as [|c s IH]; intros prev; cbn [map searchFrom].
  - pose proof (matchAt_lower r prev []
                  (fun (_ : option N) (_ : jsstring) => true)
                  (fun (_ : option N) (_ : jsstring) => true)
                  (fun _ _ => eq_refl)) as H.
    cbn [map] in H. now rewrite H.
  - pose proof (matchAt_lower r prev (c :: s)
                  (fun (_ : option N) (_ : jsstring) => true)
                  (fun (_ : option N) (_ : jsstring) => true)
                  (fun _ _ => eq_refl)) as H.
    cbn [map] in H. rewrite H.
    change (Some (asciiLower c)) with (option_map asciiLower (Some c)).
    now rewrite IH.
Qed.

Lemma isExpressionChar_lower (c : N) :
  isExpressionChar (asciiLower c) = isExpressionChar c.
Proof.
  unfold asciiLower.
  destruct (N.leb_spec 0x41 c), (N.leb_spec c 0x5A); cbn [andb];
    try reflexivity.
  unfold isExpressionChar, isDigit. cbn [existsb]. prune_tests; reflexivity.
Qed.

Lemma isSymbolChar_lower (c : N) :
  isSymbolChar (asciiLower c) = isSymbolChar c.
Proof.
  unfold asciiLower.
  destruct (N.leb_spec 0x41 c), (N.leb_spec c 0x5A); cbn [andb];
    try reflexivity.
  unfold isSymbolChar. cbn [existsb symbolUnits]. prune_tests; reflexivity.
Qed.

Lemma tabled_lower (s : jsstring) :
  forallb tabled s = true -> forallb tabled (map asciiLower s) = true.
Proof.
  induction s as [|c s IH]; [reflexivity|]. cbn [forallb map].
  rewrite !andb_true_iff. intros [Hc Hs]. split; [|now apply IH].
  revert Hc. unfold tabled, asciiLower.
  destruct (N.leb_spec 0x41 c), (N.leb_spec c 0x5A); cbn [andb];
    try (intros Hc; exact Hc).
  intros _. split_tests; try reflexivity; lia.
Qed.

Context {unicode : CaseMapping}.

Lemma classify_lower (question : jsstring) :
  forallb tabled question = true ->
  classifyMathQuestion (map asciiLower question)
  = classifyMathQuestion question.
Proof.
  intros Ht. unfold classifyMathQuestion, hasMathKeyword.
  rewrite (toLowerCase_tabled _ (tabled_lower _ Ht)),
    (toLowerCase_tabled _ Ht).
  rewrite map_map, (map_ext _ _ asciiLower_idem).
  rewrite !hasMathSymbol_chars, !hasMathExpression_chars.
  rewrite !existsb_of_map.
  rewrite (existsb_pointwise (fun a => isSymbolChar (asciiLower a))
             isSymbolChar question (fun c _ => isSymbolChar_lower c)).
  rewrite (existsb_pointwise (fun a => isExpressionChar (asciiLower a))
             isExpressionChar question (fun c _ => isExpressionChar_lower c)).
  unfold hasVariables, test.
  pose proof (searchFrom_lower variablesRe None question) as Hvar.
  cbn [option_map] in Hvar. rewrite Hvar.
  reflexivity.
Qed.

(** X5.  Two questions made of ASCII characters and mathematical operators
    that differ in letter case only get the same tag. *)
Theorem classify_ignores_letter_case (question1 question2 : jsstring) :
  forallb tabled question1 = true ->
  forallb tabled question2 = true ->
  map asciiLower question1 = map asciiLower question2 ->
  classifyMathQuestion question1 = classifyMathQuestion question2.
Proof.
  intros H1 H2 Heq.
  rewrite <- (classify_lower question1 H1), <- (classify_lower question2 H2).
  now rewrite Heq.
Qed.

End LetterCase.

(* ================================================================= *)
(** ** More properties of the handlers *)

Import Media.

Section EventFacts.

Lemma responses_nil : responses [] = [].
Proof. reflexivity. Qed.

Lemma responses_invoked c a l : responses (Invoked c a :: l) = responses l.
Proof. reflexivity. Qed.

Lemma responses_console a l : responses (ConsoleError a :: l) = responses l.
Proof. reflexivity. Qed.

Lemma responses_respond st b l :
  responses (Respond st b :: l) = (st, b) :: responses l.
Proof. reflexivity. Qed.

Lemma resolverCalls_nil : resolverCalls [] = [].
Proof. reflexivity. Qed.

Lemma resolverCalls_invoked c a l :
  resolverCalls (Invoked c a :: l)
  = (if String.eqb c "resolveQuery" then [a] else []) ++ resolverCalls l.
Proof. reflexivity. Qed.

Lemma resolverCalls_console a l :
  resolverCalls (ConsoleError a :: l) = resolverCalls l.
Proof. reflexivity. Qed.

Lemma resolverCalls_respond st b l :
  resolverCalls (Respond st b :: l) = resolverCalls l.
Proof. reflexivity. Qed.

Lemma eqb_refl (s : jsstring) : JsString.eqb s s = true.
Proof.
  induction s as [|c s IH]; [reflexivity|]. cbn [JsString.eqb].
  now rewrite N.eqb_refl, IH.
Qed.

Lemma readFile_removeFile (p : jsstring) (files : fs) :
  readFile p (removeFile p files) = None.
Proof.
  induction files as [|[p' content] files IH]; simpl; [reflexivity|].
  destruct (JsString.eqb p' p) eqn:Hp; simpl; [assumption|].
  now rewrite Hp.
Qed.

Lemma lookupField_setField (k : string) (v : value) fields :
  lookupField k (setField k v fields) = v.
Proof.
  induction fields as [|[k' v'] fields IH]; simpl.
  - now rewrite String.eqb_refl.
  - destruct (String.eqb k k') eqn:Hk; simpl.
    + now rewrite String.eqb_refl.
    + now rewrite Hk.
Qed.

Lemma lookupField_setField_other (k k' : string) (v : value) fields :
  k <> k' -> lookupField k' (setField k v fields) = lookupField k' fields.
Proof.
  intros Hne. induction fields as [|[k0 v0] fields IH]; simpl.
  - destruct (String.eqb k' k) eqn:Hk; [|reflexivity].
    apply String.eqb_eq in Hk. congruence.
  - destruct (String.eqb k k0) eqn:Hk; simpl.
    + apply String.eqb_eq in Hk. subst k0.
      destruct (String.eqb k' k) eqn:Hk'; [|reflexivity].
      apply String.eqb_eq in Hk'. congruence.
    + destruct (String.eqb k' k0); [reflexivity | exact IH].
Qed.

End EventFacts.

Create Rewrite HintDb responses.
Create Rewrite HintDb calls.
#[local] Hint Rewrite responses_nil responses_invoked responses_console
  responses_respond responses_app responses_inside : responses.
#[local] Hint Rewrite resolverCalls_nil resolverCalls_invoked
  resolverCalls_console resolverCalls_respond resolverCalls_app
  resolverCalls_inside : calls.

(** One step of a run: the next thing the handler looks at. *)
Ltac next_case :=
  match goal with
  | |- context [file ?r] =>
    is_var r; destruct r as [? [?|]]; cbn [file Server.body]
  | |- context [match readFile ?p ?f with _ => _ end] =>
    destruct (readFile p f) eqn:?
  | |- context [Server.resolveQuery ?i ?q ?o ?f] =>
    destruct (Server.resolveQuery i q o f) as [[? ?] [?|?]] eqn:?
  | |- context [processImage ?i ?a ?b ?f] =>
    destruct (processImage i a b f) as [[? ?] [?|?]] eqn:?
  | |- context [extractTextFromPDFBuffer ?m ?b ?f] =>
    destruct (extractTextFromPDFBuffer m b f) as [[? ?] [?|?]] eqn:?
  | |- context [extractQuestionsFromPDF ?m ?t ?f] =>
    destruct (extractQuestionsFromPDF m t f) as [[? ?] [?|?]] eqn:?
  | |- context [transcribe ?m ?a ?f] =>
    destruct (transcribe m a f) as [[? ?] [?|?]] eqn:?
  | |- context [ir_success ?r] => destruct (ir_success r) eqn:?
  | |- context [pr_success ?r] => destruct (pr_success r) eqn:?
  | |- context [destructureQuestion ?b] =>
    unfold destructureQuestion; destruct b eqn:?
  | |- context [transcriptText ?t] =>
    unfold transcriptText; destruct t eqn:?
  | |- context [if truthy ?v then _ else _] => destruct (truthy v) eqn:?
  | |- context [negb (truthy ?v)] => destruct (truthy v) eqn:?
  end.

Ltac unfold_handler :=
  unfold ask, askImage, askPdf, askAudio, askVideo, tryCatch, bind,
    messageOf, ret, throw, emit, destructure, respond, consoleError, invoke,
    readFileSync, unlinkSync, existsSync.

(** A collaborator that throws [Error] objects has thrown one. *)
Ltac thrown_error :=
  match goal with
  | H : _ = (_, _, inl ?v), Hthrows : forall _, _ |- _ =>
    is_var v; apply Hthrows in H; destruct H as [? ->]
  end.

Section MoreHandlerProperties.
Variable imports : Imports.
Variable media : MediaImports.

Local Arguments js : simpl never.
Local Arguments truthy : simpl never.
Local Arguments responses : simpl never.
Local Arguments resolverCalls : simpl never.
Local Arguments spread : simpl never.

Ltac answers_once :=
  first
    [ congruence
    | unfold answersOnce; cbn; split; [reflexivity|];
      autorewrite with responses; cbn [app]; eexists _, _; reflexivity ].

(** X9.  When what the collaborators throw is an [Error] object, each
    of the handlers /ask, /ask/image and /ask/pdf sends exactly one
    response and returns normally, whatever the request and the uploads
    directory: an error thrown on the way is caught and answered with
    status 500. *)
Theorem one_response_per_request (req : request) (files : fs) :
  (forall q o, throwsErrors (Server.resolveQuery imports q o)) ->
  (forall a b, throwsErrors (processImage imports a b)) ->
  (forall b, throwsErrors (extractTextFromPDFBuffer media b)) ->
  (forall t, throwsErrors (extractQuestionsFromPDF media t)) ->
  answersOnce (ask imports req files)
  /\ answersOnce (askImage imports req files)
  /\ answersOnce (askPdf imports media req files).
Proof.
  unfold throwsErrors. intros Hres Hocr Hpdf Hq.
  split; [|split].
  - rewrite ask_run. destruct (body req); cbn zeta;
      repeat (next_case; try thrown_error; cbn); answers_once.
  - unfold_handler. repeat (next_case; try thrown_error; cbn).
    all: answers_once.
  - unfold_handler. repeat (next_case; try thrown_error; cbn).
    all: answers_once.
Qed.

Ltac file_gone Hres Hq :=
  first
    [ congruence
    | cbn [fst snd]; first
        [ assumption
        | apply readFile_removeFile
        | eapply Hres; [eassumption | first [assumption | apply readFile_removeFile]]
        | eapply Hres; [eassumption |];
          eapply Hq; [eassumption | first [assumption | apply readFile_removeFile]]
        | eapply Hq; [eassumption | first [assumption | apply readFile_removeFile]] ] ].

(** X10.  After a request with an upload the uploaded file is gone
    from the uploads directory, whether the request succeeded or not,
    when what the collaborators throw is an [Error] object and what
    runs after the file has been removed (the resolver and the
    extraction of the questions of a PDF) does not put it back. *)
Theorem upload_removed (req : request) (f : upload) (files : fs) :
  file req = Some f ->
  (forall q o, throwsErrors (Server.resolveQuery imports q o)) ->
  (forall a b, throwsErrors (processImage imports a b)) ->
  (forall b, throwsErrors (extractTextFromPDFBuffer media b)) ->
  (forall t, throwsErrors (extractQuestionsFromPDF media t)) ->
  (forall a, throwsErrors (transcribe media a)) ->
  (forall q o, leavesAbsent (path f) (Server.resolveQuery imports q o)) ->
  (forall t, leavesAbsent (path f) (extractQuestionsFromPDF media t)) ->
  readFile (path f) (snd (fst (askImage imports req files))) = None
  /\ readFile (path f) (snd (fst (askPdf imports media req files))) = None
  /\ readFile (path f) (snd (fst (askAudio imports media req files))) = None
  /\ readFile (path f) (snd (fst (askVideo imports media req files))) = None.
Proof.
  intros Hfile Hres Hocr Hpdf Hq Htr Habsent Hqabsent.
  destruct req as [b fl]. cbn [file] in Hfile. subst fl.
  repeat split; unfold_handler; cbn [file Server.body];
    repeat (next_case;
            try (match goal with
                 | H : _ = (_, _, inl ?v) |- _ =>
                   is_var v;
                   let E := fresh "E" in
                   first [ pose proof (Hres _ _ _ _ _ _ H) as E
                         | pose proof (Hocr _ _ _ _ _ _ H) as E
                         | pose proof (Hpdf _ _ _ _ _ H) as E
                         | pose proof (Hq _ _ _ _ _ H) as E
                         | pose proof (Htr _ _ _ _ _ H) as E ];
                   destruct E as [? ->]
                 end);
            cbn);
    file_gone Habsent Hqabsent.
Qed.

(** X11.  When the resolver returns, /ask sends what it returned, as it
    is, with status 200; the resolver has been called once, with the
    question and the language of the request body and nothing else. *)
Theorem ask_forwards_answer (req : request) (files files' : fs)
  (steps : list step) (result : value) :
  truthy (get (body req) "question") = true ->
  Server.resolveQuery imports (get (body req) "question")
    (Object [("language", get (body req) "language")]%string) files
  = (steps, files', inr result) ->
  ask imports req files
  = (Invoked "resolveQuery"
       [get (body req) "question";
        Object [("language", get (body req) "language")]%string]
     :: map (Inside "resolveQuery") steps ++ [Respond 200 result],
     files', inr tt)
  /\ responses (eventsOf (ask imports req files)) = [(200%Z, result)]
  /\ resolverCalls (eventsOf (ask imports req files))
     = [[get (body req) "question";
         Object [("language", get (body req) "language")]%string]].
Proof.
  intros Htruthy Hres. rewrite ask_run.
  destruct (body req) eqn:Hbody; try discriminate Htruthy.
  cbn zeta. rewrite Htruthy, Hres. unfold eventsOf. cbn [fst].
  repeat split.
  - autorewrite with responses. reflexivity.
  - autorewrite with calls. reflexivity.
Qed.

(** X12.  The answer to an image question has the own enumerable
    properties of the resolver's answer (the properties of an object,
    the elements of an array, the code units of a string) with two
    properties set: [extractedText] is the text read in the image and
    [source] is "image", also when the resolver's answer had properties
    of these names. *)
Theorem image_answer_fields (req : request) (f : upload)
  (files files1 files2 : fs) (content : list N) (steps rsteps : list step)
  (result : imageResult) (answer : value) :
  file req = Some f ->
  readFile (path f) files = Some content ->
  processImage imports (imageToBase64 imports content (mimetype f))
    (mimetype f) files = (steps, files1, inr result) ->
  readFile (path f) files1 <> None ->
  ir_success result = true ->
  Server.resolveQuery imports (Str (ir_text result))
    (Object [("context", Str (imageProvenance ++ ir_text result)%list)]%string)
    (removeFile (path f) files1) = (rsteps, files2, inr answer) ->
  exists fields,
    responses (eventsOf (askImage imports req files)) = [(200%Z, Object fields)]
    /\ lookupField "source" fields = Str (js "image")
    /\ lookupField "extractedText" fields = Str (ir_text result)
    /\ (forall k, k <> "source"%string -> k <> "extractedText"%string ->
                  lookupField k fields = lookupField k (spread answer))
    /\ (forall own k, answer = Object own ->
                      k <> "source"%string -> k <> "extractedText"%string ->
                      lookupField k fields = get answer k).
Proof.
  intros Hfile Hread Hocr Hstill Hsuccess Hres.
  destruct req as [b fl]. cbn [file] in Hfile. subst fl.
  unfold_handler. cbn [file]. rewrite Hread. cbn. rewrite Hocr. cbn.
  destruct (readFile (path f) files1) eqn:Hthere; [|congruence]. cbn.
  rewrite Hsuccess. cbn. rewrite Hres. cbn.
  eexists. split; [|split; [|split; [|split]]].
  - unfold eventsOf. cbn [fst]. autorewrite with responses. reflexivity.
  - apply lookupField_setField.
  - rewrite lookupField_setField_other by discriminate.
    apply lookupField_setField.
  - intros k Hs He. now rewrite !lookupField_setField_other by congruence.
  - intros own k -> Hs He.
    now rewrite !lookupField_setField_other by congruence.
Qed.

(** X13.  When the OCR reports that it could not read the image, the answer
    is status 400 with the OCR's own error, or "Failed to process
    image" when it gave none; the resolver is not called and the
    upload is removed. *)
Theorem image_unread_rejected (req : request) (f : upload)
  (files files1 : fs) (content : list N) (steps : list step)
  (result : imageResult) :
  file req = Some f ->
  readFile (path f) files = Some content ->
  processImage imports (imageToBase64 imports content (mimetype f))
    (mimetype f) files = (steps, files1, inr result) ->
  readFile (path f) files1 <> None ->
  ir_success result = false ->
  responses (eventsOf (askImage imports req files))
  = [(400%Z, Object [("success", Boolean false);
                     ("error", if truthy (ir_error result)
                               then ir_error result
                               else Str (js "Failed to process image"))
                    ]%string)]
  /\ resolverCalls (eventsOf (askImage imports req files)) = []
  /\ snd (fst (askImage imports req files)) = removeFile (path f) files1.
Proof.
  intros Hfile Hread Hocr Hstill Hsuccess.
  destruct req as [b fl]. cbn [file] in Hfile. subst fl.
  unfold_handler. cbn [file]. rewrite Hread. cbn. rewrite Hocr. cbn.
  destruct (readFile (path f) files1) eqn:Hthere; [|congruence]. cbn.
  rewrite Hsuccess. cbn. unfold eventsOf. cbn [fst snd].
  repeat split.
  - autorewrite with responses. reflexivity.
  - autorewrite with calls. reflexivity.
Qed.

(** X14.  When the OCR throws, the answer is status 500 with the error
    "Failed to process image" and the message of the error that was
    thrown; the resolver is not called. *)
Theorem image_error_reported (req : request) (f : upload)
  (files files1 : fs) (content : list N) (steps : list step) (e : error) :
  file req = Some f ->
  readFile (path f) files = Some content ->
  processImage imports (imageToBase64 imports content (mimetype f))
    (mimetype f) files = (steps, files1, inl (thrownError e)) ->
  responses (eventsOf (askImage imports req files))
  = [(500%Z, Object [("success", Boolean false);
                     ("error", Str (js "Failed to process image"));
                     ("message", Str (message e))]%string)]
  /\ resolverCalls (eventsOf (askImage imports req files)) = [].
Proof.
  intros Hfile Hread Hocr.
  destruct req as [b fl]. cbn [file] in Hfile. subst fl.
  unfold_handler. cbn [file]. rewrite Hread. cbn. rewrite Hocr. cbn.
  destruct (readFile (path f) files1) eqn:Hthere; cbn;
    rewrite ?Hthere; cbn; unfold eventsOf; cbn [fst];
    autorewrite with responses calls; split; reflexivity.
Qed.

Lemma substring_from_start (t : jsstring) (n : nat) :
  substring t 0 n = firstn n t.
Proof. unfold substring. cbn. now rewrite Nat.sub_0_r. Qed.

(** X15.  When the text of a PDF has been extracted and the request carries
    a question, the resolver is called once, with the question and a
    context made of the header with the number of pages, a line break,
    the first 2000 code units of the text (all of it when it is not
    longer) and three dots, which are there whether or not anything was
    cut off. *)
Theorem pdf_context_excerpt (req : request) (f : upload)
  (files files1 files2 : fs) (content : list N) (steps qsteps : list step)
  (result : pdfResult) (questions : list value) :
  file req = Some f ->
  readFile (path f) files = Some content ->
  extractTextFromPDFBuffer media content files = (steps, files1, inr result) ->
  readFile (path f) files1 <> None ->
  pr_success result = true ->
  extractQuestionsFromPDF media (pr_text result) (removeFile (path f) files1)
  = (qsteps, files2, inr questions) ->
  truthy (get (body req) "question") = true ->
  let header := js "Context from PDF (" ++ numberToString media (pr_pages result)
                ++ js " pages):" ++ [0x0A] in
  let excerpt := firstn 2000 (pr_text result) in
  resolverCalls (eventsOf (askPdf imports media req files))
  = [[get (body req) "question";
      Object [("context", Str (header ++ excerpt ++ js "...")%list)]%string]]
  /\ (List.length excerpt <= 2000)%nat
  /\ ((List.length (pr_text result) <= 2000)%nat -> excerpt = pr_text result)
  /\ List.length (header ++ excerpt ++ js "...")
     = (List.length header
        + Nat.min 2000 (List.length (pr_text result)) + 3)%nat.
Proof.
  intros Hfile Hread Hpdf Hstill Hsuccess Hquestions Htruthy header excerpt.
  split; [|split; [|split]].
  - destruct req as [b fl]. cbn [file Server.body] in *. subst fl.
    destruct b; try discriminate Htruthy.
    unfold_handler. cbn [file Server.body]. rewrite Hread. cbn. rewrite Hpdf. cbn.
    destruct (readFile (path f) files1) eqn:Hthere; [|congruence]. cbn.
    rewrite Hsuccess. cbn. rewrite Hquestions. cbn.
    cbn [get] in Htruthy. rewrite Htruthy. cbn.
    unfold pdfContext. rewrite substring_from_start.
    destruct (Server.resolveQuery imports _ _ files2)
      as [[rsteps files3] [e|answer]]; [destruct e|]; cbn;
      try (destruct (readFile (path f) files3) eqn:Hf3; cbn; rewrite ?Hf3; cbn);
      unfold eventsOf; cbn [fst]; autorewrite with calls; cbn [String.eqb Ascii.eqb Bool.eqb app];
      unfold header, excerpt; rewrite <- ?app_assoc; reflexivity.
  - apply firstn_le_length.
  - intros Hshort. now apply firstn_all2.
  - unfold header, excerpt. rewrite !length_app, length_firstn.
    change (List.length (js "...")) with 3%nat. lia.
Qed.

(** X16.  When the text of a PDF has been extracted and the request carries
    no question, the answer is status 200 with the questions found in
    the text and the first 1000 code units of the text followed by
    three dots; the resolver is not called. *)
Theorem pdf_without_question (req : request) (f : upload)
  (files files1 files2 : fs) (content : list N) (steps qsteps : list step)
  (result : pdfResult) (questions : list value) :
  file req = Some f ->
  readFile (path f) files = Some content ->
  extractTextFromPDFBuffer media content files = (steps, files1, inr result) ->
  readFile (path f) files1 <> None ->
  pr_success result = true ->
  extractQuestionsFromPDF media (pr_text result) (removeFile (path f) files1)
  = (qsteps, files2, inr questions) ->
  body req <> Undefined -> body req <> Null ->
  truthy (get (body req) "question") = false ->
  responses (eventsOf (askPdf imports media req files))
  = [(200%Z, Object [
        ("success", Boolean true);
        ("source", Str (js "pdf"));
        ("pdfInfo", Object [
           ("pages", Number (pr_pages result));
           ("questionsFound", Number (Z.of_nat (List.length questions)))]);
        ("questions", Array questions);
        ("fullText", Str (firstn 1000 (pr_text result) ++ js "...")%list)
      ]%string)]
  /\ resolverCalls (eventsOf (askPdf imports media req files)) = []
  /\ (List.length (firstn 1000 (pr_text result) ++ js "...") <= 1003)%nat.
Proof.
  intros Hfile Hread Hpdf Hstill Hsuccess Hquestions Hu Hn Hfalsy.
  split; [|split].
  - destruct req as [b fl]. cbn [file Server.body] in *. subst fl.
    unfold_handler. cbn [file Server.body]. rewrite Hread. cbn. rewrite Hpdf. cbn.
    destruct (readFile (path f) files1) eqn:Hthere; [|congruence]. cbn.
    rewrite Hsuccess. cbn. rewrite Hquestions. cbn.
    destruct b; try congruence; cbn; cbn [get] in Hfalsy;
      try rewrite Hfalsy; cbn; unfold eventsOf; cbn [fst];
      autorewrite with responses; rewrite ?substring_from_start; reflexivity.
  - destruct req as [b fl]. cbn [file Server.body] in *. subst fl.
    unfold_handler. cbn [file Server.body]. rewrite Hread. cbn. rewrite Hpdf. cbn.
    destruct (readFile (path f) files1) eqn:Hthere; [|congruence]. cbn.
    rewrite Hsuccess. cbn. rewrite Hquestions. cbn.
    destruct b; try congruence; cbn; cbn [get] in Hfalsy;
      try rewrite Hfalsy; cbn; unfold eventsOf; cbn [fst];
      autorewrite with calls; reflexivity.
  - rewrite length_app. pose proof (firstn_le_length 1000 (pr_text result)).
    change (List.length (js "...")) with 3%nat. lia.
Qed.

Lemma transcriptText_reads (transcription : value) (s : jsstring)
  (files : fs) :
  reads transcription s ->
  transcriptText transcription files = ([], files, inr (Str s)).
Proof.
  intros [-> | [fields [-> Htext]]]; [reflexivity|].
  unfold transcriptText, ret. cbn [get]. rewrite Htext.
  now destruct s.
Qed.

(** X17.  When the transcription of an audio or video upload reads a text
    that is not empty, the resolver is called once, with that text and
    with a context that is the provenance sentence of the handler
    followed by the text as it is. *)
Theorem transcript_context (req : request) (f : upload)
  (files files1 : fs) (steps : list step) (transcription : value)
  (s : jsstring) :
  file req = Some f ->
  transcribe media (transcriptionRequest f) files
  = (steps, files1, inr transcription) ->
  readFile (path f) files1 <> None ->
  reads transcription s ->
  s <> [] ->
  resolverCalls (eventsOf (askAudio imports media req files))
  = [[Str s; Object [("context", Str (audioProvenance ++ s)%list)]%string]]
  /\ resolverCalls (eventsOf (askVideo imports media req files))
     = [[Str s; Object [("context", Str (videoProvenance ++ s)%list)]%string]].
Proof.
  intros Hfile Htr Hstill Hreads Hs.
  destruct req as [b fl]. cbn [file] in Hfile. subst fl.
  assert (Htruthy : truthy (Str s) = true) by now destruct s.
  split; unfold_handler; cbn [file]; rewrite Htr; cbn;
    (destruct (readFile (path f) files1) eqn:Hthere; [|congruence]); cbn;
    rewrite (transcriptText_reads _ Hreads); cbn; rewrite Htruthy; cbn;
    (destruct (Server.resolveQuery imports _ _ _)
       as [[rsteps files3] [e|answer]]; [destruct e|]); cbn;
    try (destruct (readFile (path f) files3) eqn:Hf3; cbn; rewrite ?Hf3; cbn);
    unfold eventsOf; cbn [fst]; autorewrite with calls;
    cbn [String.eqb Ascii.eqb Bool.eqb app]; reflexivity.
Qed.

(** X18.  When the transcription of an audio or video upload reads nothing,
    the answer is status 400 with the error "Could not transcribe
    audio" (or "video"), and the resolver is not called. *)
Theorem empty_transcript_rejected (req : request) (f : upload)
  (files files1 : fs) (steps : list step) (transcription : value) :
  file req = Some f ->
  transcribe media (transcriptionRequest f) files
  = (steps, files1, inr transcription) ->
  readFile (path f) files1 <> None ->
  reads transcription [] ->
  (responses (eventsOf (askAudio imports media req files))
   = [(400%Z, Object [("success", Boolean false);
                      ("error", Str (js "Could not transcribe audio"))]%string)]
   /\ resolverCalls (eventsOf (askAudio imports media req files)) = [])
  /\ (responses (eventsOf (askVideo imports media req files))
      = [(400%Z, Object [("success", Boolean false);
                         ("error", Str (js "Could not transcribe video"))
                        ]%string)]
      /\ resolverCalls (eventsOf (askVideo imports media req files)) = []).
Proof.
  intros Hfile Htr Hstill Hreads.
  destruct req as [b fl]. cbn [file] in Hfile. subst fl.
  assert (Hfalsy : truthy (Str []) = false) by reflexivity.
  split; split; unfold_handler; cbn [file]; rewrite Htr; cbn;
    (destruct (readFile (path f) files1) eqn:Hthere; [|congruence]); cbn;
    rewrite (transcriptText_reads _ Hreads); cbn; rewrite Hfalsy; cbn;
    unfold eventsOf; cbn [fst]; autorewrite with responses calls;
    reflexivity.
Qed.

(** X19.  A transcription that is [undefined] or [null] makes the handler
    throw after the upload has been removed; the error is caught and
    answered with status 500. *)
Theorem missing_transcript_reported (req : request) (f : upload)
  (files files1 : fs) (steps : list step) (transcription : value) :
  file req = Some f ->
  transcribe media (transcriptionRequest f) files
  = (steps, files1, inr transcription) ->
  readFile (path f) files1 <> None ->
  transcription = Undefined \/ transcription = Null ->
  exists msg,
    responses (eventsOf (askAudio imports media req files))
    = [(500%Z, Object [("success", Boolean false);
                       ("error", Str (js "Failed to process audio"));
                       ("message", Str msg)]%string)]
    /\ resolverCalls (eventsOf (askAudio imports media req files)) = []
    /\ snd (fst (askAudio imports media req files))
       = removeFile (path f) files1.
Proof.
  intros Hfile Htr Hstill Hmissing.
  destruct req as [b fl]. cbn [file] in Hfile. subst fl.
  eexists.
  unfold_handler; cbn [file]; rewrite Htr; cbn.
  destruct (readFile (path f) files1) eqn:Hthere; [|congruence]. cbn.
  destruct Hmissing as [-> | ->]; cbn;
    rewrite readFile_removeFile; cbn;
    unfold eventsOf; cbn [fst snd]; autorewrite with responses calls;
    repeat split; reflexivity.
Qed.

End MoreHandlerProperties.

(* ================================================================= *)
(** ** Which questions get which tag *)

Section TagProperties.
Context {unicode : CaseMapping}.

Lemma firstMatch_in (q : jsstring) rs :
  In (firstMatch q rs) (map snd rs ++ [js "math"]).
Proof.
  induction rs as [|[triggers tag] rs IH]; simpl.
  - now left.
  - destruct (some _ triggers); [now left | now right].
Qed.

Lemma firstMatch_iff (q : jsstring) before triggers tag after :
  NoDup (map snd (before ++ (triggers, tag) :: after) ++ [js "math"]) ->
  firstMatch q (before ++ (triggers, tag) :: after) = tag <->
  (forall t, In t (flat_map fst before) -> includes q t = false)
  /\ exists t, In t triggers /\ includes q t = true.
Proof.
  induction before as [|[triggers0 tag0] before IH]; intros Hnodup.
  - cbn [app firstMatch flat_map]. cbn [map app] in Hnodup.
    apply NoDup_cons_iff in Hnodup as [Hnotin _].
    destruct (some _ triggers) eqn:Hsome.
    + split; [|reflexivity]. intros _. split; [intros t []|].
      apply existsb_exists in Hsome as [t Ht]. now exists t.
    + split.
      * intros Heq. exfalso. apply Hnotin. rewrite <- Heq.
        apply firstMatch_in.
      * intros [_ [t [Hin Ht]]].
        assert (some (fun t => includes q t) triggers = true); [|congruence].
        apply existsb_exists. now exists t.
  - cbn [app firstMatch flat_map fst]. cbn [map app snd] in Hnodup.
    apply NoDup_cons_iff in Hnodup as [Hnotin Hnodup].
    destruct (some _ triggers0) eqn:Hsome.
    + split.
      * intros ->. exfalso. apply Hnotin. rewrite map_app. cbn [map snd].
        rewrite <- app_assoc. apply in_or_app. right. now left.
      * intros [Hnone _]. exfalso.
        apply existsb_exists in Hsome as [t [Hin Ht]].
        rewrite Hnone in Ht; [discriminate|]. apply in_or_app. now left.
    + rewrite (IH Hnodup). split.
      * intros [Hnone Hex]. split; [|exact Hex].
        intros t Ht. apply in_app_or in Ht as [Ht | Ht]; [|now apply Hnone].
        apply not_true_is_false. intros Hq.
        assert (some (fun t => includes q t) triggers0 = true); [|congruence].
        apply existsb_exists. now exists t.
      * intros [Hnone Hex]. split; [|exact Hex].
        intros t Ht. apply Hnone. apply in_or_app. now right.
Qed.

Lemma rules_tags_distinct :
  NoDup (map snd rules ++ [js "math"]) /\ ~ In (js "unknown") (map snd rules ++ [js "math"]).
Proof.
  split.
  - unfold rules. cbn [map snd app].
    repeat (constructor; [vm_compute; intuition discriminate|]). constructor.
  - vm_compute. intuition discriminate.
Qed.

(** X6.  A question gets the tag of a rule exactly when it passes the gate,
    contains one of the rule's triggers, letter case set aside, and
    contains no trigger of a rule that comes before it. *)
Theorem tag_iff_rule (question : jsstring) before triggers tag after :
  rules = before ++ (triggers, tag) :: after ->
  classifyMathQuestion question = tag <->
  passesGate question = true
  /\ (forall t, In t (flat_map fst before) -> containsCI question t = false)
  /\ exists t, In t triggers /\ containsCI question t = true.
Proof.
  intros Hrules. destruct rules_tags_distinct as [Hnodup Hunknown].
  rewrite Hrules in Hnodup, Hunknown.
  destruct (passesGate question) eqn:Hgate.
  - rewrite classify_gate_true by assumption. rewrite Hrules.
    rewrite (firstMatch_iff _ _ _ _ _ Hnodup). unfold containsCI. tauto.
  - rewrite classify_gate_false by assumption. split.
    + intros Heq. exfalso. apply Hunknown. rewrite Heq, map_app.
      cbn [map snd]. rewrite <- app_assoc. apply in_or_app. right. now left.
    + intros [Hfalse _]. discriminate.
Qed.

(** X7.  A question gets the tag "math" exactly when it passes the gate and
    contains no trigger of any rule. *)
Theorem math_iff_no_trigger (question : jsstring) :
  classifyMathQuestion question = js "math" <->
  passesGate question = true
  /\ forall t, In t (flat_map fst rules) -> containsCI question t = false.
Proof.
  destruct (passesGate question) eqn:Hgate.
  - rewrite classify_gate_true by assumption. split.
    + intros Hmath. split; [reflexivity|]. intros t Ht.
      apply not_true_is_false. intros Hq. revert Hmath Ht Hq.
      unfold containsCI. generalize (toLowerCase question) as q. intros q.
      unfold rules, firstMatch, some. cbn [map existsb flat_map fst app].
      intros Hmath Ht.
      repeat match type of Hmath with
      | context [includes q ?u] =>
        destruct (includes q u) eqn:?; cbn [orb] in Hmath;
        [vm_compute in Hmath; discriminate|]
      end.
      cbn [In] in Ht.
      repeat (destruct Ht as [<- | Ht]; [congruence|]). destruct Ht.
    + intros [_ Hnone]. now apply firstMatch_none.
  - rewrite classify_gate_false by assumption. split.
    + intros Heq. vm_compute in Heq. discriminate.
    + intros [Hfalse _]. discriminate.
Qed.

(** X8.  The eighteen rule triggers fall into three groups.  Twelve
    contain a gate keyword ("integration" contains "ratio"): a question
    that contains one of them, letter case set aside, is never
    "unknown".  Two contain a math symbol, the integral sign and "d/dx":
    a question that contains one of them as written is never "unknown".
    Four contain neither, "integrate", "differentiate", "determinant"
    and "trig": they do not open the gate, and a question made of such
    a word alone is "unknown". *)
Theorem trigger_opens_gate :
  (forall question t,
     In t openingTriggers -> containsCI question t = true ->
     passesGate question = true
     /\ classifyMathQuestion question <> js "unknown")
  /\ (forall question t,
        In t symbolTriggers -> includes question t = true ->
        passesGate question = true
        /\ classifyMathQuestion question <> js "unknown")
  /\ openingTriggers
     = map js ["integration"; "derivative"; "matrix"; "sin"; "cos"; "tan";
               "geometry"; "area"; "volume"; "perimeter"; "probability";
               "statistics"]%string
  /\ symbolTriggers = map js ["∫"; "d/dx"]%string
  /\ closedTriggers
     = map js ["integrate"; "differentiate"; "determinant"; "trig"]%string
  /\ (forall t, In t (flat_map fst rules) ->
                In t openingTriggers \/ In t symbolTriggers
                \/ In t closedTriggers)
  /\ Forall (fun t => classifyMathQuestion t = js "unknown") closedTriggers.
Proof.
  assert (Hknown : forall question,
            passesGate question = true ->
            classifyMathQuestion question <> js "unknown").
  { intros question Hgate. rewrite classify_gate_true by assumption.
    pose proof (firstMatch_tag (toLowerCase question)) as Htag.
    intros Hunknown. rewrite Hunknown in Htag. revert Htag.
    vm_compute. intuition discriminate. }
  split; [|split; [|split; [|split; [|split; [|split]]]]].
  - intros question t Hin Hq.
    apply filter_In in Hin as [_ Hkw].
    apply existsb_exists in Hkw as [keyword [Hkeyword Hsub]].
    assert (Hgate : passesGate question = true).
    { apply keyword_passesGate with keyword; [exact Hkeyword|].
      unfold containsCI in *. now apply includes_trans with t. }
    split; [exact Hgate | now apply Hknown].
  - intros question t Hin Hq.
    apply filter_In in Hin as [_ Hsym].
    apply existsb_exists in Hsym as [symbol [Hsymbol Hsub]].
    assert (Hgate : passesGate question = true).
    { apply symbol_passesGate with symbol; [exact Hsymbol|].
      now apply includes_trans with t. }
    split; [exact Hgate | now apply Hknown].
  - reflexivity.
  - reflexivity.
  - reflexivity.
  - intros t Ht. vm_compute in Ht.
    repeat (destruct Ht as [<- | Ht]; [vm_compute; tauto|]). destruct Ht.
  - change closedTriggers
      with (map js ["integrate"; "differentiate"; "determinant";
                    "trig"]%string).
    cbn [map].
    repeat (constructor; [now rewrite classify_tabled|]).
    constructor.
Qed.

End TagProperties.

(* ================================================================= *)
(** ** The further properties at sample inputs *)

Import MediaSamples.

(** "SOLVE X" and "solve x". *)
Lemma classify_ignores_letter_case_witness :
  classifyMathQuestion (unicode := basicCaseMapping) (js "What Is The AREA?")
  = classifyMathQuestion (unicode := basicCaseMapping) (js "what is the area?").
Proof.
  apply (@classify_ignores_letter_case basicCaseMapping); reflexivity.
Defined.

(** The trigonometry rule, after three rules and before two. *)
Lemma tag_iff_rule_witness :
  classifyMathQuestion (unicode := basicCaseMapping) (js "cos of 30 degrees")
  = js "trigonometry".
Proof.
  apply (@tag_iff_rule basicCaseMapping (js "cos of 30 degrees")
           (firstn 3 rules) (map js ["trig"; "sin"; "cos"; "tan"]%string)
           (js "trigonometry") (skipn 4 rules) eq_refl).
  split; [reflexivity|]. split.
  - intros t Ht. vm_compute in Ht.
    repeat (destruct Ht as [<- | Ht]; [reflexivity|]). destruct Ht.
  - exists (js "cos"). split; [|reflexivity]. right. right. now left.
Defined.

Lemma failingResolver_leavesAbsent (p : jsstring) (q o : value) :
  leavesAbsent p (failingResolver q o).
Proof.
  intros files steps files' r Hrun Habsent.
  unfold failingResolver, bind, emit, throw in Hrun.
  injection Hrun as _ <- _. exact Habsent.
Qed.

Lemma sampleQuestions_leavesAbsent (p : jsstring) (t : jsstring) :
  leavesAbsent p (sampleQuestions t).
Proof.
  intros files steps files' r Hrun Habsent.
  unfold sampleQuestions, ret in Hrun.
  injection Hrun as _ <- _. exact Habsent.
Qed.

Lemma failingResolver_throwsErrors (q o : value) :
  throwsErrors (failingResolver q o).
Proof.
  intros files steps files' thrown Hrun.
  unfold failingResolver, bind, emit, throw in Hrun.
  injection Hrun as _ _ <-. now eexists.
Qed.

Lemma sampleOcr_throwsErrors (a b : jsstring) : throwsErrors (sampleOcr a b).
Proof. intros files steps files' thrown Hrun. discriminate Hrun. Qed.

Lemma samplePdf_throwsErrors (b : list N) : throwsErrors (samplePdf b).
Proof. intros files steps files' thrown Hrun. discriminate Hrun. Qed.

Lemma sampleQuestions_throwsErrors (t : jsstring) :
  throwsErrors (sampleQuestions t).
Proof. intros files steps files' thrown Hrun. discriminate Hrun. Qed.

Lemma sampleTranscribe_throwsErrors (transcription a : value) :
  throwsErrors (transcribe (sampleMedia transcription) a).
Proof. intros files steps files' thrown Hrun. discriminate Hrun. Qed.

(** A question, an image and a PDF with a resolver that times out. *)
Lemma one_response_per_request_witness :
  answersOnce (ask (sampleImports failingResolver)
                 (askRequest (Str (js "2 + 2"))) [])
  /\ answersOnce (askImage (sampleImports failingResolver) imageRequest
                    sampleFiles)
  /\ answersOnce (askPdf (sampleImports failingResolver)
                    (sampleMedia Undefined)
                    (pdfRequest (Str (js "What is 2 + 2?"))) sampleFiles).
Proof.
  split; [|split].
  - exact (proj1 (@one_response_per_request (sampleImports failingResolver)
      (sampleMedia Undefined) (askRequest (Str (js "2 + 2"))) []
      failingResolver_throwsErrors sampleOcr_throwsErrors
      samplePdf_throwsErrors sampleQuestions_throwsErrors)).
  - exact (proj1 (proj2 (@one_response_per_request
      (sampleImports failingResolver) (sampleMedia Undefined)
      imageRequest sampleFiles
      failingResolver_throwsErrors sampleOcr_throwsErrors
      samplePdf_throwsErrors sampleQuestions_throwsErrors))).
  - exact (proj2 (proj2 (@one_response_per_request
      (sampleImports failingResolver) (sampleMedia Undefined)
      (pdfRequest (Str (js "What is 2 + 2?"))) sampleFiles
      failingResolver_throwsErrors sampleOcr_throwsErrors
      samplePdf_throwsErrors sampleQuestions_throwsErrors))).
Defined.

(** An upload answered by the sample collaborators, with a resolver
    that times out. *)
Lemma upload_removed_witness :
  readFile (path sampleUpload)
    (snd (fst (askImage (sampleImports failingResolver) imageRequest
                 sampleFiles))) = None
  /\ readFile (path sampleUpload)
       (snd (fst (askPdf (sampleImports failingResolver)
                    (sampleMedia (Str (js "two plus two")))
                    imageRequest sampleFiles))) = None.
Proof.
  pose proof (@upload_removed (sampleImports failingResolver)
                (sampleMedia (Str (js "two plus two")))
                imageRequest sampleUpload sampleFiles eq_refl
                failingResolver_throwsErrors sampleOcr_throwsErrors
                samplePdf_throwsErrors sampleQuestions_throwsErrors
                (@sampleTranscribe_throwsErrors (Str (js "two plus two")))
                (@failingResolver_leavesAbsent (path sampleUpload))
                (@sampleQuestions_leavesAbsent (path sampleUpload))) as H.
  split; [exact (proj1 H) | exact (proj1 (proj2 H))].
Defined.

(** The question "2 + 2" in Spanish, answered by the echo. *)
Lemma ask_forwards_answer_witness :
  responses (eventsOf (ask (sampleImports echoResolver)
     {| body := Object [("question", Str (js "2 + 2"));
                        ("language", Str (js "es"))]%string;
        file := None |} []))
  = [(200%Z, Object [("success", Boolean true);
                     ("answerText", Str (js "2 + 2"))]%string)].
Proof.
  exact (proj1 (proj2 (@ask_forwards_answer (sampleImports echoResolver)
    {| body := Object [("question", Str (js "2 + 2"));
                       ("language", Str (js "es"))]%string;
       file := None |} [] [] [Generation [] [] []]
    (Object [("success", Boolean true);
             ("answerText", Str (js "2 + 2"))]%string)
    eq_refl eq_refl))).
Defined.

(** The sample image, answered by the echo. *)
Lemma image_answer_fields_witness :
  exists fields,
    responses (eventsOf (askImage (sampleImports echoResolver) imageRequest
                           sampleFiles)) = [(200%Z, Object fields)]
    /\ lookupField "source" fields = Str (js "image").
Proof.
  destruct (@image_answer_fields (sampleImports echoResolver) imageRequest
              sampleUpload sampleFiles sampleFiles [] [0x89; 0x50; 0x4E; 0x47]
              [Extraction] [Generation [] [] []]
              {| ir_success := true; ir_text := js "2 + 2 = ?";
                 ir_error := Undefined |}
              (Object [("success", Boolean true);
                       ("answerText", Str (js "2 + 2 = ?"))]%string)
              eq_refl eq_refl eq_refl ltac:(vm_compute; discriminate)
              eq_refl eq_refl) as [fields [Hr [Hs _]]].
  now exists fields.
Defined.

(** The sample image with an OCR that finds no text. *)
Lemma image_unread_rejected_witness :
  resolverCalls (eventsOf (askImage (importsWithOcr blindOcr) imageRequest
                             sampleFiles)) = [].
Proof.
  exact (proj1 (proj2 (@image_unread_rejected (importsWithOcr blindOcr)
    imageRequest sampleUpload sampleFiles sampleFiles
    [0x89; 0x50; 0x4E; 0x47] [Extraction]
    {| ir_success := false; ir_text := [];
       ir_error := Str (js "No text detected") |}
    eq_refl eq_refl eq_refl ltac:(vm_compute; discriminate) eq_refl))).
Defined.

(** The sample image with an OCR that throws. *)
Lemma image_error_reported_witness :
  responses (eventsOf (askImage (importsWithOcr brokenOcr) imageRequest
                         sampleFiles))
  = [(500%Z, Object [("success", Boolean false);
                     ("error", Str (js "Failed to process image"));
                     ("message", Str (js "Worker terminated"))]%string)].
Proof.
  exact (proj1 (@image_error_reported (importsWithOcr brokenOcr)
    imageRequest sampleUpload sampleFiles sampleFiles
    [0x89; 0x50; 0x4E; 0x47] [Extraction]
    {| message := js "Worker terminated" |} eq_refl eq_refl eq_refl)).
Defined.

(** The sample PDF with the question "What is 2 + 2?". *)
Lemma pdf_context_excerpt_witness :
  resolverCalls (eventsOf (askPdf (sampleImports echoResolver)
     (sampleMedia Undefined) (pdfRequest (Str (js "What is 2 + 2?")))
     sampleFiles))
  = [[Str (js "What is 2 + 2?");
      Object [("context",
               Str (js "Context from PDF (1 pages):" ++ [0x0A]
                    ++ js "Q1. What is 2 + 2?" ++ js "...")%list)]%string]].
Proof.
  exact (proj1 (@pdf_context_excerpt (sampleImports echoResolver)
    (sampleMedia Undefined) (pdfRequest (Str (js "What is 2 + 2?")))
    sampleUpload sampleFiles sampleFiles [] [0x89; 0x50; 0x4E; 0x47]
    [Extraction] []
    {| pr_success := true; pr_text := js "Q1. What is 2 + 2?";
       pr_pages := 1; pr_error := Undefined |}
    [Str (js "Q1. What is 2 + 2?")]
    eq_refl eq_refl eq_refl ltac:(vm_compute; discriminate)
    eq_refl eq_refl eq_refl)).
Defined.

(** The sample PDF without a question. *)
Lemma pdf_without_question_witness :
  resolverCalls (eventsOf (askPdf (sampleImports echoResolver)
     (sampleMedia Undefined) (pdfRequest Undefined) sampleFiles)) = [].
Proof.
  exact (proj1 (proj2 (@pdf_without_question (sampleImports echoResolver)
    (sampleMedia Undefined) (pdfRequest Undefined)
    sampleUpload sampleFiles sampleFiles [] [0x89; 0x50; 0x4E; 0x47]
    [Extraction] []
    {| pr_success := true; pr_text := js "Q1. What is 2 + 2?";
       pr_pages := 1; pr_error := Undefined |}
    [Str (js "Q1. What is 2 + 2?")]
    eq_refl eq_refl eq_refl ltac:(vm_compute; discriminate)
    eq_refl eq_refl ltac:(discriminate) ltac:(discriminate) eq_refl))).
Defined.

(** A recording in which "two plus two" is heard. *)
Lemma transcript_context_witness :
  resolverCalls (eventsOf (askAudio (sampleImports echoResolver)
     (sampleMedia (Str (js "two plus two"))) imageRequest sampleFiles))
  = [[Str (js "two plus two");
      Object [("context",
               Str (audioProvenance ++ js "two plus two")%list)]%string]].
Proof.
  exact (proj1 (@transcript_context (sampleImports echoResolver)
    (sampleMedia (Str (js "two plus two"))) imageRequest sampleUpload
    sampleFiles sampleFiles [Extraction] (Str (js "two plus two"))
    (js "two plus two") eq_refl eq_refl ltac:(vm_compute; discriminate)
    (or_introl eq_refl) ltac:(vm_compute; discriminate))).
Defined.

(** A recording in which nothing is heard. *)
Lemma empty_transcript_rejected_witness :
  resolverCalls (eventsOf (askAudio (sampleImports echoResolver)
     (sampleMedia (Object [("text", Str [])]%string)) imageRequest
     sampleFiles)) = [].
Proof.
  exact (proj2 (proj1 (@empty_transcript_rejected
    (sampleImports echoResolver)
    (sampleMedia (Object [("text", Str [])]%string)) imageRequest sampleUpload
    sampleFiles sampleFiles [Extraction] (Object [("text", Str [])]%string)
    eq_refl eq_refl ltac:(vm_compute; discriminate)
    (or_intror (ex_intro _ [("text", Str [])]%string (conj eq_refl eq_refl)))))).
Defined.

(** A transcription call that resolves to [undefined]. *)
Lemma missing_transcript_reported_witness :
  exists msg,
    responses (eventsOf (askAudio (sampleImports echoResolver)
       (sampleMedia Undefined) imageRequest sampleFiles))
    = [(500%Z, Object [("success", Boolean false);
                       ("error", Str (js "Failed to process audio"));
                       ("message", Str msg)]%string)].
Proof.
  destruct (@missing_transcript_reported (sampleImports echoResolver)
              (sampleMedia Undefined) imageRequest sampleUpload
              sampleFiles sampleFiles [Extraction] Undefined
              eq_refl eq_refl ltac:(vm_compute; discriminate)
              (or_introl eq_refl)) as [msg [H _]].
  now exists msg.
Defined.

(** The questions "Integration by parts" and "what is d/dx here". *)
Lemma trigger_opens_gate_witness :
  classifyMathQuestion (unicode := basicCaseMapping)
    (js "Integration by parts") <> js "unknown"
  /\ classifyMathQuestion (unicode := basicCaseMapping)
       (js "what is d/dx here") <> js "unknown".
Proof.
  split.
  - apply (proj1 (@trigger_opens_gate basicCaseMapping)
             (js "Integration by parts") (js "integration")).
    + vm_compute. tauto.
    + reflexivity.
  - apply (proj1 (proj2 (@trigger_opens_gate basicCaseMapping))
             (js "what is d/dx here") (js "d/dx")).
    + vm_compute. tauto.
    + reflexivity.
Defined.
